(** * Resource-scheduling calendar: the view-model engine of [Calendar.tsx]

    A shallow embedding of the date arithmetic, the view partitioner, the
    event normalizer, the visibility projector and the drag controller of
    [src/Calendar.tsx], followed by the properties of the specification
    that concern them.

    Modelling conventions.
    - A JavaScript [Date] with a finite time value is that time value: an
      integer number of milliseconds since the epoch (the [[DateValue]]
      slot).  [Date] below is such a valid date.  Time values are unbounded
      integers: the range limit of [TimeClip] at 8.64e15 ms is outside the
      model.
    - The Invalid Date, whose time value is [NaN], enters the component
      through the event normalizer, from a string that is no date.  The
      normalizer is therefore given twice: [toDate] and [normalizeEvent] on
      events whose dates are valid, and [toDate_any] and
      [normalizeEvent_any] on every event, with [None] for the Invalid Date;
      the two agree on valid dates ([normalizeEvent_any_valid]).  An event
      with an Invalid date passes the filter of no section
      ([never_drawn]), so the projector and the drag controller, which
      handle drawn events, are given on valid dates.  An Invalid Date
      object passed by the host behaves in the normalizer as a non-empty
      string that is no date does, and has no constructor of its own.
    - Local time is UTC plus a constant offset [LocalTZA] (any fixed-offset
      zone); zones whose offset changes with daylight saving are outside the
      model.
    - The abstract operations [Day], [YearFromTime], [MakeDay], ... are those
      of ECMA-262, section "Time Values and Time Range"; [Z.div] and
      [Z.modulo] are the floor division and modulo of that section.
    - The mutator sequence [const x = new Date(d.getTime()); x.setXxx(..);
      return x] acts on a fresh object and is written as a pure function.
    - Markup, keys, titles and CSS are presentation and are not modelled. *)

From Stdlib Require Import ZArith QArith Qround Lia Bool List String.
Import ListNotations.
Local Open Scope Z_scope.

(* ================================================================== *)
(** * Part I: definitions                                              *)
(* ================================================================== *)

(** ** ECMAScript time-value arithmetic *)

Definition msPerSecond : Z := 1000.
Definition msPerMinute : Z := 60000.
Definition msPerHour   : Z := 3600000.
Definition msPerDay    : Z := 86400000.

Definition Day (t : Z) : Z := t / msPerDay.
Definition TimeWithinDay (t : Z) : Z := t mod msPerDay.

Definition DaysInYear (y : Z) : Z :=
  if negb (y mod 4 =? 0) then 365
  else if negb (y mod 100 =? 0) then 366
  else if negb (y mod 400 =? 0) then 365
  else 366.

Definition DayFromYear (y : Z) : Z :=
  365 * (y - 1970) + (y - 1969) / 4 - (y - 1901) / 100 + (y - 1601) / 400.

Definition TimeFromYear (y : Z) : Z := msPerDay * DayFromYear y.

(** ECMA-262 defines [YearFromTime t] as the largest [y] with
    [TimeFromYear y <= t].  The executable form estimates the year from the
    mean length of a Gregorian year (146097 days in 400 years) and corrects
    the estimate by at most one; [YearFromDay_spec] and [YearFromDay_unique]
    below show it is the year of the standard. *)
Definition YearFromDay (day : Z) : Z :=
  let y0 := 1970 + (day * 400) / 146097 in
  if day <? DayFromYear y0 then y0 - 1
  else if DayFromYear (y0 + 1) <=? day then y0 + 1
  else y0.

Definition YearFromTime (t : Z) : Z := YearFromDay (Day t).

Definition LeapOfYear (y : Z) : Z := if DaysInYear y =? 365 then 0 else 1.
Definition InLeapYear (t : Z) : Z := LeapOfYear (YearFromTime t).

Definition DayWithinYear (t : Z) : Z := Day t - DayFromYear (YearFromTime t).

Definition MonthFromTime (t : Z) : Z :=
  let d := DayWithinYear t in
  let l := InLeapYear t in
  if d <? 31 then 0
  else if d <? 59 + l then 1
  else if d <? 90 + l then 2
  else if d <? 120 + l then 3
  else if d <? 151 + l then 4
  else if d <? 181 + l then 5
  else if d <? 212 + l then 6
  else if d <? 243 + l then 7
  else if d <? 273 + l then 8
  else if d <? 304 + l then 9
  else if d <? 334 + l then 10
  else 11.

Definition DateFromTime (t : Z) : Z :=
  let d := DayWithinYear t in
  let l := InLeapYear t in
  match MonthFromTime t with
  | 0 => d + 1
  | 1 => d - 30
  | 2 => d - 58 - l
  | 3 => d - 89 - l
  | 4 => d - 119 - l
  | 5 => d - 150 - l
  | 6 => d - 180 - l
  | 7 => d - 211 - l
  | 8 => d - 242 - l
  | 9 => d - 272 - l
  | 10 => d - 303 - l
  | _ => d - 333 - l
  end.

Definition WeekDay (t : Z) : Z := (Day t + 4) mod 7.

Definition HourFromTime (t : Z) : Z := (t / msPerHour) mod 24.
Definition MinFromTime (t : Z) : Z := (t / msPerMinute) mod 60.
Definition SecFromTime (t : Z) : Z := (t / msPerSecond) mod 60.
Definition msFromTime (t : Z) : Z := t mod msPerSecond.

Definition MakeTime (hour min sec ms : Z) : Z :=
  hour * msPerHour + min * msPerMinute + sec * msPerSecond + ms.

(** Number of days of the year that precede month [m] (0 = January). *)
Definition DaysBeforeMonth (leap m : Z) : Z :=
  match m with
  | 0 => 0
  | 1 => 31
  | 2 => 59 + leap
  | 3 => 90 + leap
  | 4 => 120 + leap
  | 5 => 151 + leap
  | 6 => 181 + leap
  | 7 => 212 + leap
  | 8 => 243 + leap
  | 9 => 273 + leap
  | 10 => 304 + leap
  | 11 => 334 + leap
  | _ => 365 + leap
  end.

Definition DaysInMonth (y m : Z) : Z :=
  DaysBeforeMonth (LeapOfYear y) (m + 1) - DaysBeforeMonth (LeapOfYear y) m.

(** ECMA-262 [MakeDay]: the day number of the first of month [mn] of year
    [ym] (the month index is carried into the year), plus [date - 1].
    [MakeDay_first] below shows the day found is the one the standard asks
    for. *)
Definition MakeDay (year month date : Z) : Z :=
  let ym := year + month / 12 in
  let mn := month mod 12 in
  DayFromYear ym + DaysBeforeMonth (LeapOfYear ym) mn + date - 1.

Definition MakeDate (day time : Z) : Z := day * msPerDay + time.

(** [Math.round (n / d)] for an integer [n] and a positive integer [d]:
    nearest integer, ties towards plus infinity. *)
Definition Math_round_div (n d : Z) : Z := (2 * n + d) / (2 * d).

(** [Math.min(max, Math.max(min, v))] *)
Definition clamp (v min max : Z) : Z := Z.min max (Z.max min v).

(** ** The [Date] object and the records of [Calendar.tsx] *)

Record Date : Type := mkDate { getTime : Z }.

(** The union [string | Date] of the event fields [start] and [end]. *)
Inductive DateInput : Type :=
| OfString (s : string)
| OfDate (d : Date).

Module CalendarResource.
Record t : Type := mk { id : string; title : string }.
End CalendarResource.

Module CalendarEvent.
Record t : Type := mk {
  id : option string;
  title : string;
  start : DateInput;
  end_ : option DateInput;
  resourceId : option string;
  color : option string
}.
End CalendarEvent.

Inductive CalendarView : Type := vDay | vWeek | vMonth | vYear.

Module NormalizedEvent.
Record t : Type := mk {
  id : option string;
  title : string;
  start : Date;
  end_ : Date;
  resourceId : option string;
  color : option string;
  raw : CalendarEvent.t
}.
End NormalizedEvent.

(** A normalized event as [normalizeEvents] builds it from any input: its
    [start] and [end] are [Date] objects that may be the Invalid Date,
    [None]. *)
Module NormalizedAny.
Record t : Type := mk {
  id : option string;
  title : string;
  start : option Date;
  end_ : option Date;
  resourceId : option string;
  color : option string;
  raw : CalendarEvent.t
}.
End NormalizedAny.

(** The optional keys of a [CalendarEvent] object take a value or read
    [undefined], the [None] of the record above, and a key reads
    [undefined] when the object lacks it and when the object holds it with
    the value [undefined].  The difference shows in an object spread alone;
    [UndefinedKeys] says, for an object, which optional keys it holds with
    the value [undefined]. *)
Record UndefinedKeys : Type := mkUndefinedKeys {
  id_undefined : bool;
  end_undefined : bool;
  resourceId_undefined : bool;
  color_undefined : bool
}.

(** [key] and [title] of a section are display strings and are left out. *)
Module ViewSection.
Record t : Type := mk { start : Date; end_ : Date; days : list Date }.
End ViewSection.

Record ViewModel : Type := mkViewModel { section : ViewSection.t }.

(** Pointer coordinates are CSS pixels, kept as exact rationals. *)
Record PointerEvent : Type := mkPointerEvent {
  pointerId : Z;
  clientX : Q;
  clientY : Q
}.

Module DragState.
Record t : Type := mk {
  pointerId : Z;
  eventId : string;
  origin : NormalizedEvent.t;
  startX : Q;
  startY : Q;
  deltaDays : Z;
  targetResourceIndex : Z
}.
End DragState.

(** One entry of the [visible] array of [renderEventsForSection]. *)
Module Positioned.
Record t : Type := mk {
  ev : NormalizedEvent.t;
  startIndex : Z;
  endIndex : Z;
  resourceIndex : Z
}.
End Positioned.

(** JavaScript truthiness of a [string | null | undefined] value. *)
Definition truthy (o : option string) : bool :=
  match o with
  | Some s => negb (s =? "")%string
  | None => false
  end.

(** Truthiness of a [string | Date] value: every object is truthy, a string
    is truthy unless empty. *)
Definition truthyInput (v : DateInput) : bool :=
  match v with
  | OfDate _ => true
  | OfString s => negb (s =? "")%string
  end.

(** [xs[i]] for a number [i] that holds an integer: [undefined] out of
    range. *)
Definition at_index {A : Type} (xs : list A) (i : Z) : option A :=
  if i <? 0 then None else nth_error xs (Z.to_nat i).

(** [xs.findIndex(p)]: the first index whose element satisfies [p], or -1. *)
Fixpoint findIndex {A : Type} (p : A -> bool) (xs : list A) : Z :=
  match xs with
  | [] => -1
  | x :: rest =>
      if p x then 0
      else let i := findIndex p rest in if i <? 0 then -1 else i + 1
  end.

(** [Array.from({ length: n }, (_, i) => f i)] *)
Definition Array_from {A : Type} (n : nat) (f : Z -> A) : list A :=
  map (fun i => f (Z.of_nat i)) (seq 0 n).

(** All-or-nothing evaluation of a list of computations that may throw. *)
Fixpoint sequence {A : Type} (xs : list (option A)) : option (list A) :=
  match xs with
  | [] => Some []
  | None :: _ => None
  | Some x :: rest =>
      match sequence rest with
      | Some ys => Some (x :: ys)
      | None => None
      end
  end.

(** The grid placement of one event element returned by
    [renderEventsForSection]: the numbers of its [gridColumn] and [gridRow]
    style and the horizontal offset, in pixels, of its [transform]. *)
Module Placement.
Record t : Type := mk {
  ev : NormalizedEvent.t;
  gridColumnStart : Z;
  gridColumnEnd : Z;
  gridRow : Z;
  transform : option Q
}.
End Placement.

(** ** Sample data

    The local zone of the samples is UTC+8 (no daylight saving).  The
    dates are time values in milliseconds since the epoch; the lemmas of
    Part III check them against [new Date(y, m, d)]. *)

Definition zoneOffset : Z := 28800000.

(** The host of the samples recognises no string as a date; every sample
    date but one is passed as a [Date] object. *)
Definition unparsed (s : string) : Z := 0.
Definition unrecognised (s : string) : bool := true.

Definition dec_31 : Date := mkDate 1703952000000.      (* 2023-12-31 00:00 *)
Definition jan_08 : Date := mkDate 1704643200000.      (* 2024-01-08 00:00 *)
Definition jan_10 : Date := mkDate 1704816000000.      (* 2024-01-10 00:00 *)
Definition jan_10_0930 : Date := mkDate 1704850200000. (* 2024-01-10 09:30 *)
Definition jan_10_1400 : Date := mkDate 1704866400000. (* 2024-01-10 14:00 *)
Definition jan_11 : Date := mkDate 1704902400000.      (* 2024-01-11 00:00 *)
Definition jan_12 : Date := mkDate 1704988800000.      (* 2024-01-12 00:00 *)
Definition jan_13 : Date := mkDate 1705075200000.      (* 2024-01-13 00:00 *)
Definition jan_14 : Date := mkDate 1705161600000.      (* 2024-01-14 00:00 *)
Definition feb_14 : Date := mkDate 1707840000000.      (* 2024-02-14 00:00 *)
Definition jan_31_2023 : Date := mkDate 1675094400000. (* 2023-01-31 00:00 *)
Definition feb_03_2023 : Date := mkDate 1675353600000. (* 2023-02-03 00:00 *)

Local Open Scope string_scope.

Definition threeResources : list CalendarResource.t :=
  [CalendarResource.mk "r1" "Resource A";
   CalendarResource.mk "r2" "Resource B";
   CalendarResource.mk "r3" "Resource C"].

(** A resource list whose only resource has the empty string as id. *)
Definition unnamedResources : list CalendarResource.t :=
  [CalendarResource.mk "" "Unnamed"].

(** An all-day event on 2024-01-10 with no end. *)
Definition task1 : CalendarEvent.t :=
  CalendarEvent.mk (Some "e1") "Task 1" (OfDate jan_10) None (Some "r1")
    (Some "#1677ff").

(** An event that ends at 14:00 of its first day. *)
Definition task2 : CalendarEvent.t :=
  CalendarEvent.mk (Some "e2") "Task 2" (OfDate jan_10)
    (Some (OfDate jan_10_1400)) (Some "r2") None.

(** An event whose end is not after its start. *)
Definition task3 : CalendarEvent.t :=
  CalendarEvent.mk (Some "e3") "Task 3" (OfDate jan_10_0930)
    (Some (OfDate jan_08)) (Some "r1") None.

(** An event that spans the five days from 2024-01-08 to 2024-01-12. *)
Definition fiveDays : CalendarEvent.t :=
  CalendarEvent.mk (Some "e5") "Five days" (OfDate jan_08)
    (Some (OfDate jan_13)) (Some "r1") None.

(** An event whose end is a string that is no date. *)
Definition endsSoon : CalendarEvent.t :=
  CalendarEvent.mk (Some "e7") "Ends soon" (OfDate jan_10)
    (Some (OfString "soon")) (Some "r1") None.

(** An event assigned to the resource whose id is the empty string. *)
Definition onUnnamed : CalendarEvent.t :=
  CalendarEvent.mk (Some "e9") "On the unnamed resource" (OfDate jan_10) None
    (Some "") None.

Local Close Scope string_scope.

(** The one-day section of 2024-01-10. *)
Definition daySection : ViewSection.t := ViewSection.mk jan_10 jan_11 [jan_10].

Definition pointerOne : PointerEvent := mkPointerEvent 1 (220 # 1) (95 # 1).
Definition pointerTwo : PointerEvent := mkPointerEvent 2 (400 # 1) (50 # 1).

(** ** The host environment, the [Date] methods and the program *)

Section Calendar.

(** The constant offset of local time from UTC, in milliseconds. *)
Variable LocalTZA : Z.

(** The time value [new Date(s)] gives for a date string [s]. *)
Variable Date_parse : string -> Z.

(** Whether [Date.parse(s)] is [NaN]: the string [s] is not recognised as a
    date, and [Date_parse s] has no meaning. *)
Variable Date_parse_isNaN : string -> bool.

Definition LocalTime (t : Z) : Z := t + LocalTZA.
Definition UTC (t : Z) : Z := t - LocalTZA.

(** *** Methods of [Date] *)

(** Years 0 to 99 passed to the component constructor mean 1900 to 1999. *)
Definition MakeFullYear (y : Z) : Z :=
  if (0 <=? y) && (y <=? 99) then 1900 + y else y.

(** [new Date(y, m, d)] *)
Definition Date_ymd (y m d : Z) : Date :=
  mkDate (UTC (MakeDate (MakeDay (MakeFullYear y) m d) (MakeTime 0 0 0 0))).

Definition getFullYear (d : Date) : Z := YearFromTime (LocalTime (getTime d)).
Definition getMonth (d : Date) : Z := MonthFromTime (LocalTime (getTime d)).
Definition getDate (d : Date) : Z := DateFromTime (LocalTime (getTime d)).
Definition getDay (d : Date) : Z := WeekDay (LocalTime (getTime d)).
Definition getHours (d : Date) : Z := HourFromTime (LocalTime (getTime d)).
Definition getMinutes (d : Date) : Z := MinFromTime (LocalTime (getTime d)).
Definition getSeconds (d : Date) : Z := SecFromTime (LocalTime (getTime d)).
Definition getMilliseconds (d : Date) : Z := msFromTime (LocalTime (getTime d)).

Definition setHours (x : Date) (h m s ms : Z) : Date :=
  let t := LocalTime (getTime x) in
  mkDate (UTC (MakeDate (Day t) (MakeTime h m s ms))).

Definition setDate (x : Date) (dt : Z) : Date :=
  let t := LocalTime (getTime x) in
  mkDate (UTC (MakeDate (MakeDay (YearFromTime t) (MonthFromTime t) dt)
                        (TimeWithinDay t))).

Definition setMonth (x : Date) (m : Z) : Date :=
  let t := LocalTime (getTime x) in
  mkDate (UTC (MakeDate (MakeDay (YearFromTime t) m (DateFromTime t))
                        (TimeWithinDay t))).

Definition setFullYear (x : Date) (y : Z) : Date :=
  let t := LocalTime (getTime x) in
  mkDate (UTC (MakeDate (MakeDay y (MonthFromTime t) (DateFromTime t))
                        (TimeWithinDay t))).

(** *** Date arithmetic of [Calendar.tsx] *)

(** [toDate] on a date object and on a string that is a date;
    [toDate_any] below is [toDate] on every input. *)
Definition toDate (v : DateInput) : Date :=
  match v with
  | OfDate d => mkDate (getTime d)
  | OfString s => mkDate (Date_parse s)
  end.

Definition startOfDay (d : Date) : Date :=
  let x := mkDate (getTime d) in
  setHours x 0 0 0 0.

Definition addDays (d : Date) (deltaDays : Z) : Date :=
  let x := mkDate (getTime d) in
  setDate x (getDate x + deltaDays).

Definition addMonths (d : Date) (deltaMonths : Z) : Date :=
  let x := mkDate (getTime d) in
  setMonth x (getMonth x + deltaMonths).

Definition addYears (d : Date) (deltaYears : Z) : Date :=
  let x := mkDate (getTime d) in
  setFullYear x (getFullYear x + deltaYears).

Definition diffDays (a b : Date) : Z :=
  let ms := getTime (startOfDay a) - getTime (startOfDay b) in
  Math_round_div ms (24 * 60 * 60 * 1000).

(** *** View partitioner *)

Definition monthDays (anchor : Date) : list Date :=
  let y := getFullYear anchor in
  let m := getMonth anchor in
  let last := Date_ymd y (m + 1) 0 in
  map (fun d => Date_ymd y m (Z.of_nat d)) (seq 1 (Z.to_nat (getDate last))).

Definition weekDays (anchor : Date) : list Date :=
  let d := startOfDay anchor in
  let day := getDay d in
  let mondayOffset := (day + 6) mod 7 in
  let start := addDays d (- mondayOffset) in
  Array_from 7 (fun i => addDays start i).

Definition dayOnly (anchor : Date) : list Date := [startOfDay anchor].

(** [None] stands for the [TypeError] of reading a method of [undefined]
    when [days[0]] does not exist. *)
Definition getViewModel (activeDate : Date) (view : CalendarView)
  : option ViewModel :=
  match view with
  | vDay =>
      let days := dayOnly activeDate in
      match at_index days 0 with
      | Some start =>
          let end_ := addDays start 1 in
          Some (mkViewModel (ViewSection.mk start end_ days))
      | None => None
      end
  | vWeek =>
      let days := weekDays activeDate in
      match at_index days 0 with
      | Some start =>
          let end_ := addDays start 7 in
          Some (mkViewModel (ViewSection.mk start end_ days))
      | None => None
      end
  | _ =>
      let days := monthDays activeDate in
      match at_index days 0,
            at_index days (Z.of_nat (List.length days) - 1) with
      | Some first, Some last =>
          let start := startOfDay first in
          let end_ := addDays (startOfDay last) 1 in
          Some (mkViewModel (ViewSection.mk start end_ days))
      | _, _ => None
      end
  end.

Definition getYearSections (activeDate : Date) : option (list ViewSection.t) :=
  let y := getFullYear activeDate in
  sequence (Array_from 12 (fun i =>
    let anchor := Date_ymd y i 1 in
    let days := monthDays anchor in
    match at_index days 0,
          at_index days (Z.of_nat (List.length days) - 1) with
    | Some first, Some last =>
        let start := startOfDay first in
        let end_ := addDays (startOfDay last) 1 in
        Some (ViewSection.mk start end_ days)
    | _, _ => None
    end)).

(** The [sections] memo of the component: the sections drawn for the
    active date and view. *)
Definition sections (activeDate : Date) (view : CalendarView)
  : option (list ViewSection.t) :=
  match getViewModel activeDate view with
  | Some viewModel =>
      match view with
      | vYear => getYearSections activeDate
      | _ => Some [section viewModel]
      end
  | None => None
  end.

Definition addByView (d : Date) (view : CalendarView) (delta : Z) : Date :=
  match view with
  | vDay => addDays d delta
  | vWeek => addDays d (delta * 7)
  | vMonth => addMonths d delta
  | vYear => addYears d delta
  end.

(** The state updaters of the toolbar buttons. *)
Definition goPrev (view : CalendarView) (d : Date) : Date := addByView d view (-1).
Definition goNext (view : CalendarView) (d : Date) : Date := addByView d view 1.

(** *** Event normalizer *)

(** The callback of [events.map] in [normalizeEvents], on an event whose
    dates are valid; [normalizeEvent_any] below is the callback on every
    event. *)
Definition normalizeEvent (e : CalendarEvent.t) : NormalizedEvent.t :=
  let start := startOfDay (toDate (CalendarEvent.start e)) in
  let endRaw :=
    match CalendarEvent.end_ e with
    | Some v => if truthyInput v then toDate v else addDays start 1
    | None => addDays start 1
    end in
  let endDay := startOfDay endRaw in
  let hasTime :=
    negb (getHours endRaw =? 0) || negb (getMinutes endRaw =? 0)
    || negb (getSeconds endRaw =? 0) || negb (getMilliseconds endRaw =? 0) in
  let end_ := if hasTime then addDays endDay 1 else endDay in
  let safeEnd :=
    if getTime end_ <=? getTime start then addDays start 1 else end_ in
  NormalizedEvent.mk
    (CalendarEvent.id e)
    (CalendarEvent.title e)
    start
    safeEnd
    (CalendarEvent.resourceId e)
    (CalendarEvent.color e)
    e.

Definition normalizeEvents (events : list CalendarEvent.t)
  : list NormalizedEvent.t :=
  map normalizeEvent events.

(** *** Visibility projector: the [visible] array of
    [renderEventsForSection] *)

Definition visibleFilter (section : ViewSection.t) (ev : NormalizedEvent.t)
  : bool :=
  if negb (truthy (NormalizedEvent.resourceId ev)) then false
  else (getTime (ViewSection.start section) <? getTime (NormalizedEvent.end_ ev))
       && (getTime (NormalizedEvent.start ev) <? getTime (ViewSection.end_ section)).

Definition sameId (r : CalendarResource.t) (rid : option string) : bool :=
  match rid with
  | Some s => (CalendarResource.id r =? s)%string
  | None => false
  end.

Definition position (section : ViewSection.t)
    (resources : list CalendarResource.t) (ev : NormalizedEvent.t)
  : Positioned.t :=
  let start :=
    if getTime (NormalizedEvent.start ev) <? getTime (ViewSection.start section)
    then ViewSection.start section else NormalizedEvent.start ev in
  let end_ :=
    if getTime (ViewSection.end_ section) <? getTime (NormalizedEvent.end_ ev)
    then ViewSection.end_ section else NormalizedEvent.end_ ev in
  let startIndex := diffDays start (ViewSection.start section) in
  let endIndex := diffDays end_ (ViewSection.start section) in
  let resourceIndex :=
    findIndex (fun r => sameId r (NormalizedEvent.resourceId ev)) resources in
  Positioned.mk ev startIndex (Z.max (startIndex + 1) endIndex) resourceIndex.

Definition visible (section : ViewSection.t)
    (resources : list CalendarResource.t) (events : list NormalizedEvent.t)
  : list Positioned.t :=
  filter (fun x => 0 <=? Positioned.resourceIndex x)
    (map (position section resources)
       (filter (visibleFilter section) events)).

(** *** Drag controller *)

Definition rowHeight : Z := 40.

(** [Math.floor((clientY - rect.top) / rowHeight)] *)
Definition rowUnder (rectTop clientY : Q) : Z :=
  Qfloor ((clientY - rectTop) / inject_Z rowHeight).

(** [Math.round(x)]: nearest integer, ties towards plus infinity. *)
Definition Math_round (x : Q) : Z := Qfloor (x + (1 # 2)).

(** The handlers read the drag slot of the current render and write the
    next one; the result is the slot after the handler has run.
    [bodyRect] is the top edge of [bodyRef.current], [None] when the ref
    is not attached. *)
Definition onEventPointerDown (resources : list CalendarResource.t)
    (bodyRect : option Q) (drag : option DragState.t)
    (e : PointerEvent) (ev : NormalizedEvent.t) : option DragState.t :=
  match NormalizedEvent.id ev with
  | Some id =>
      if (id =? "")%string then drag
      else
        match bodyRect with
        | None => drag
        | Some top =>
            Some (DragState.mk
                    (pointerId e)
                    id
                    ev
                    (clientX e)
                    (clientY e)
                    0
                    (clamp (rowUnder top (clientY e)) 0
                       (Z.max 0 (Z.of_nat (List.length resources) - 1))))
        end
  | None => drag
  end.

Definition onEventPointerMove (resources : list CalendarResource.t)
    (bodyRect : option Q) (cellWidth : Q) (drag : option DragState.t)
    (e : PointerEvent) : option DragState.t :=
  match drag with
  | None => None
  | Some prev =>
      if negb (pointerId e =? DragState.pointerId prev) then drag
      else
        match bodyRect with
        | None => drag
        | Some top =>
            let dx := (clientX e - DragState.startX prev)%Q in
            let deltaDays :=
              if Qlt_le_dec 0 cellWidth then Math_round (dx / cellWidth) else 0 in
            let targetResourceIndex :=
              clamp (rowUnder top (clientY e)) 0
                (Z.max 0 (Z.of_nat (List.length resources) - 1)) in
            Some (DragState.mk
                    (DragState.pointerId prev)
                    (DragState.eventId prev)
                    (DragState.origin prev)
                    (DragState.startX prev)
                    (DragState.startY prev)
                    deltaDays
                    targetResourceIndex)
        end
  end.

(** The record built by [{ ...drag.origin.raw, id, start, end,
    resourceId }]. *)
Definition updatedEvent (drag : DragState.t) (nextResourceId : string)
  : CalendarEvent.t :=
  let raw := NormalizedEvent.raw (DragState.origin drag) in
  CalendarEvent.mk
    (NormalizedEvent.id (DragState.origin drag))
    (CalendarEvent.title raw)
    (OfDate (addDays (NormalizedEvent.start (DragState.origin drag))
               (DragState.deltaDays drag)))
    (Some (OfDate (addDays (NormalizedEvent.end_ (DragState.origin drag))
                     (DragState.deltaDays drag))))
    (Some nextResourceId)
    (CalendarEvent.color raw).

(** [onEventChange] tells whether the optional callback prop is supplied.
    The result is the next drag slot and the arguments of the calls made
    to the callback, in order. *)
Definition onEventPointerUp (resources : list CalendarResource.t)
    (onEventChange : bool) (drag : option DragState.t) (e : PointerEvent)
  : option DragState.t * list CalendarEvent.t :=
  match drag with
  | None => (None, [])
  | Some d =>
      if negb (pointerId e =? DragState.pointerId d) then (drag, [])
      else
        let nextResourceId :=
          option_map CalendarResource.id
            (at_index resources (DragState.targetResourceIndex d)) in
        if negb (truthy nextResourceId) then (None, [])
        else
          match nextResourceId with
          | Some rid =>
              (None, if onEventChange then [updatedEvent d rid] else [])
          | None => (None, [])
          end
  end.

(** ** Vocabulary of the properties *)

(** The local wall-clock reading of a date, its local day number and the
    test for local midnight. *)
Definition localTime (d : Date) : Z := LocalTime (getTime d).
Definition localDay (d : Date) : Z := Day (localTime d).
Definition atMidnight (d : Date) : Prop := TimeWithinDay (localTime d) = 0.

(** A sequence of dates in which each entry is the previous one plus one
    day. *)
Definition contiguous (days : list Date) : Prop :=
  forall (i : nat) (a b : Date),
    nth_error days i = Some a -> nth_error days (S i) = Some b ->
    b = addDays a 1 /\ getTime b = getTime a + msPerDay.

(** The end of a raw event when one is given: [e.end] is used only when it
    is truthy, so an empty string counts as no end at all. *)
Definition givenEnd (e : CalendarEvent.t) : option DateInput :=
  match CalendarEvent.end_ e with
  | Some v => if truthyInput v then Some v else None
  | None => None
  end.

(** The normalization rule in the words of the specification, on local day
    numbers: the start is floored to its day; without an end the event
    lasts one day; an end with a time of day is rounded up to the following
    midnight; an end not after the start is replaced by start + 1 day. *)
Definition canonicalEndDay (e : CalendarEvent.t) : Z :=
  let startDay := localDay (toDate (CalendarEvent.start e)) in
  match givenEnd e with
  | None => startDay + 1
  | Some v =>
      let endRaw := toDate v in
      let endDay :=
        if TimeWithinDay (localTime endRaw) =? 0 then localDay endRaw
        else localDay endRaw + 1 in
      if endDay <=? startDay then startDay + 1 else endDay
  end.

Definition Canonical (e : CalendarEvent.t) (n : NormalizedEvent.t) : Prop :=
  atMidnight (NormalizedEvent.start n)
  /\ localDay (NormalizedEvent.start n) = localDay (toDate (CalendarEvent.start e))
  /\ atMidnight (NormalizedEvent.end_ n)
  /\ localDay (NormalizedEvent.end_ n) = canonicalEndDay e
  /\ getTime (NormalizedEvent.start n) < getTime (NormalizedEvent.end_ n)
  /\ NormalizedEvent.id n = CalendarEvent.id e
  /\ NormalizedEvent.title n = CalendarEvent.title e
  /\ NormalizedEvent.resourceId n = CalendarEvent.resourceId e
  /\ NormalizedEvent.color n = CalendarEvent.color e
  /\ NormalizedEvent.raw n = e.

(** [n] consecutive days from [first]. *)
Definition dayRun (first : Date) (n : nat) : list Date :=
  map (fun i => mkDate (getTime first + Z.of_nat i * msPerDay)) (seq 0 n).

(** The invariant of a section in the data model of the specification:
    the days are calendar days (local midnights), contiguous and ascending,
    the section starts at its first day and ends one day after the start of
    its last day. *)
Definition SectionInv (s : ViewSection.t) : Prop :=
  Forall atMidnight (ViewSection.days s)
  /\ contiguous (ViewSection.days s)
  /\ nth_error (ViewSection.days s) 0 = Some (ViewSection.start s)
  /\ exists lastDay : Date,
       nth_error (ViewSection.days s) (List.length (ViewSection.days s) - 1)
       = Some lastDay
       /\ ViewSection.end_ s = addDays (startOfDay lastDay) 1.

(** The section of month [m] of year [y], as a run of days from the first
    of the month ([y] is read as the [Date] constructor reads it). *)
Definition monthSectionOf (y m : Z) : ViewSection.t :=
  let first := Date_ymd y m 1 in
  let n := Z.to_nat (DaysInMonth (MakeFullYear y) m) in
  ViewSection.mk first (addDays first (Z.of_nat n)) (dayRun first n).


(** The later and the earlier of two dates. *)
Definition maxDate (a b : Date) : Date := mkDate (Z.max (getTime a) (getTime b)).
Definition minDate (a b : Date) : Date := mkDate (Z.min (getTime a) (getTime b)).

(** The visibility condition in the words of the specification: the event
    has a resource id that occurs in the resource list, and its span meets
    the open interval of the section. *)
Definition knownResource (resources : list CalendarResource.t)
    (rid : option string) : bool :=
  match rid with
  | Some s => existsb (fun r => (CalendarResource.id r =? s)%string) resources
  | None => false
  end.

Definition meets (section : ViewSection.t) (ev : NormalizedEvent.t) : bool :=
  (getTime (ViewSection.start section) <? getTime (NormalizedEvent.end_ ev))
  && (getTime (NormalizedEvent.start ev) <? getTime (ViewSection.end_ section)).

Definition shownBySpec (section : ViewSection.t)
    (resources : list CalendarResource.t) (ev : NormalizedEvent.t) : bool :=
  knownResource resources (NormalizedEvent.resourceId ev) && meets section ev.

(** The same condition with the resource id required to be non-empty. *)
Definition shown (section : ViewSection.t)
    (resources : list CalendarResource.t) (ev : NormalizedEvent.t) : bool :=
  truthy (NormalizedEvent.resourceId ev) && shownBySpec section resources ev.

(** Navigation keeps the day of the month as long as every month it visits
    has that day: [fits d n] says so for the month [n] months away from
    [d]. *)
Definition fits (d : Date) (n : Z) : bool :=
  getDate d <=? DaysInMonth (getFullYear d + (getMonth d + n) / 12)
                  ((getMonth d + n) mod 12).

(** The number of months one step of a view moves by (the day and week
    views move by days and never change the day of the month by
    overflow). *)
Definition unitMonths (view : CalendarView) : Z :=
  match view with
  | vMonth => 1
  | vYear => 12
  | _ => 0
  end.

(** No step among [k] steps in direction [dir] (1 forwards, -1 backwards)
    lands in a month too short for the day of the month of [d]. *)
Definition noOverflow (view : CalendarView) (d : Date) (k : nat) (dir : Z)
  : bool :=
  forallb (fun j => fits d (dir * unitMonths view * Z.of_nat j)) (seq 0 (S k)).

(** ** Further code of the component and of its host *)

(** *** Cell width: [compute] of the layout effect *)

Definition resourceColWidth : Z := 240.

(** [Math.max(0, x)] *)
Definition Math_max0 (x : Q) : Q := if Qlt_le_dec 0 x then x else 0%Q.

(** The width of a day column from the width of the body rectangle (a
    finite number of pixels) and the number of days of the section. *)
Definition computeCellWidth (rectWidth : Q) (daysCount : nat) : Q :=
  let width := Math_max0 (rectWidth - inject_Z resourceColWidth) in
  let w :=
    if (0 <? Z.of_nat daysCount)%Z then (width / inject_Z (Z.of_nat daysCount))%Q
    else inject_Z 40 in
  if Qlt_le_dec (inject_Z 5) w then w else inject_Z 40.

(** *** The elements of [renderEventsForSection] *)




(** *** The host [App]: the [onEventChange] handler *)

(** [{ ...e, ...updated }]: every key [updated] holds overwrites the key of
    [e], also when it holds [undefined]; a key [updated] lacks leaves the
    key of [e] as it is.  [held] tells the two apart for the optional keys
    of [updated] that read [undefined]. *)
Definition spread (e updated : CalendarEvent.t) (held : UndefinedKeys)
  : CalendarEvent.t :=
  let over {A : Type} (holdsUndefined : bool) (new old : option A)
    : option A :=
    match new with
    | Some v => Some v
    | None => if holdsUndefined then None else old
    end in
  CalendarEvent.mk
    (over (id_undefined held) (CalendarEvent.id updated) (CalendarEvent.id e))
    (CalendarEvent.title updated)
    (CalendarEvent.start updated)
    (over (end_undefined held) (CalendarEvent.end_ updated)
       (CalendarEvent.end_ e))
    (over (resourceId_undefined held) (CalendarEvent.resourceId updated)
       (CalendarEvent.resourceId e))
    (over (color_undefined held) (CalendarEvent.color updated)
       (CalendarEvent.color e)).

(** [e.id === updated.id] for a truthy [updated.id]. *)
Definition hasId (e : CalendarEvent.t) (id : option string) : bool :=
  match CalendarEvent.id e, id with
  | Some a, Some b => (a =? b)%string
  | None, None => true
  | _, _ => false
  end.

(** The state of [events] after [onEventChange(updated)], for an object
    [updated] that holds the keys [held] with the value [undefined]. *)
Definition App_onEventChange (events : list CalendarEvent.t)
    (updated : CalendarEvent.t) (held : UndefinedKeys)
  : list CalendarEvent.t :=
  if negb (truthy (CalendarEvent.id updated)) then events
  else
    map (fun e =>
           if hasId e (CalendarEvent.id updated) then spread e updated held
           else e)
      events.

(** *** The narrow-screen variant of the component *)

(** The [displayResources] memo: all resources on a wide screen, the
    selected one alone on a narrow screen. *)
Definition displayResources (isMobile : bool)
    (resources : list CalendarResource.t) (selectedResourceId : string)
  : list CalendarResource.t :=
  if negb isMobile then resources
  else if (selectedResourceId =? "")%string then firstn 1 resources
  else
    match find (fun x => (CalendarResource.id x =? selectedResourceId)%string)
            resources with
    | Some r => [r]
    | None => firstn 1 resources
    end.

(** The [displayEvents] memo. *)
Definition displayEvents (isMobile : bool)
    (shownResources : list CalendarResource.t)
    (normalizedEvents : list NormalizedEvent.t) : list NormalizedEvent.t :=
  if negb isMobile then normalizedEvents
  else
    let rid := option_map CalendarResource.id (at_index shownResources 0) in
    if negb (truthy rid) then []
    else filter (fun e => match NormalizedEvent.resourceId e, rid with
                          | Some a, Some b => (a =? b)%string
                          | _, _ => false
                          end) normalizedEvents.

(** The effect that keeps [selectedResourceId] among the resources: the
    selection after the effect has run on the selection [prev]. *)
Definition syncSelectedResource (resources : list CalendarResource.t)
    (prev : string) : string :=
  if (Z.of_nat (List.length resources) =? 0)%Z then ""%string
  else if existsb (fun r => (CalendarResource.id r =? prev)%string) resources
       then prev
       else match at_index resources 0 with
            | Some r => CalendarResource.id r
            | None => ""%string
            end.

(** *** Dispatch of the pointer events

    [onEventPointerDown] is bound on the event elements alone.
    [onEventPointerMove] and [onEventPointerUp] are bound on the grid body
    (in [renderMonthSection]) and again on every event element inside it (in
    [renderEventsForSection]), and no handler stops the propagation.  A
    pointer-move or pointer-up dispatched at an event element - where the
    pointer capture taken by [onEventPointerDown] sends the events of its
    pointer - therefore runs the handler of the element and then, bubbling,
    the handler of the body; one dispatched at the body or at one of its
    cells runs the handler of the body alone.  The handlers of one dispatch
    are closures of the same render: they read the same [drag].  A pointer
    event dispatched outside the grid body runs no handler of the component
    and is no case of [PointerTarget]. *)
Inductive PointerTarget : Type := atEventElement | atBody.

(** The number of handlers a pointer-move or a pointer-up runs. *)
Definition handlersReached (target : PointerTarget) : nat :=
  match target with
  | atEventElement => 2
  | atBody => 1
  end.

(** The function [onEventPointerMove] passes to [setDrag], made of the
    values the handler computes from the [drag] of its render; [None] when
    the handler returns before it reaches [setDrag]. *)
Definition moveUpdater (resources : list CalendarResource.t)
    (bodyRect : option Q) (cellWidth : Q) (drag : option DragState.t)
    (e : PointerEvent) : option (option DragState.t -> option DragState.t) :=
  match drag with
  | None => None
  | Some d =>
      if negb (pointerId e =? DragState.pointerId d) then None
      else
        match bodyRect with
        | None => None
        | Some top =>
            let dx := (clientX e - DragState.startX d)%Q in
            let deltaDays :=
              if Qlt_le_dec 0 cellWidth then Math_round (dx / cellWidth) else 0 in
            let targetResourceIndex :=
              clamp (rowUnder top (clientY e)) 0
                (Z.max 0 (Z.of_nat (List.length resources) - 1)) in
            Some (fun prev =>
                    match prev with
                    | Some p =>
                        Some (DragState.mk
                                (DragState.pointerId p)
                                (DragState.eventId p)
                                (DragState.origin p)
                                (DragState.startX p)
                                (DragState.startY p)
                                deltaDays
                                targetResourceIndex)
                    | None => None
                    end)
        end
  end.

(** One pointer-move: the drag slot after the updaters of the handlers it
    reaches have been applied, in order, to the slot of the render. *)
Definition dispatchPointerMove (resources : list CalendarResource.t)
    (bodyRect : option Q) (cellWidth : Q) (drag : option DragState.t)
    (target : PointerTarget) (e : PointerEvent) : option DragState.t :=
  let run (slot : option DragState.t) :=
    match moveUpdater resources bodyRect cellWidth drag e with
    | Some update => update slot
    | None => slot
    end in
  match target with
  | atBody => run drag
  | atEventElement => run (run drag)
  end.

(** One pointer-up: the drag slot after the handlers it reaches have run,
    and the calls they made to the callback, in order. *)
Definition dispatchPointerUp (resources : list CalendarResource.t)
    (onEventChange : bool) (drag : option DragState.t)
    (target : PointerTarget) (e : PointerEvent)
  : option DragState.t * list CalendarEvent.t :=
  match target with
  | atBody => onEventPointerUp resources onEventChange drag e
  | atEventElement =>
      let ofElement := onEventPointerUp resources onEventChange drag e in
      let ofBody := onEventPointerUp resources onEventChange drag e in
      (fst ofBody, snd ofElement ++ snd ofBody)
  end.

(** The drag slot after a run of pointer-moves, each dispatched at its own
    target under the body rectangle and the cell width of its render. *)
Definition afterDispatchedMoves (resources : list CalendarResource.t)
    (drag : option DragState.t)
    (moves : list (PointerTarget * option Q * Q * PointerEvent))
  : option DragState.t :=
  fold_left
    (fun slot m =>
       match m with
       | (target, bodyRect, cellWidth, e) =>
           dispatchPointerMove resources bodyRect cellWidth slot target e
       end)
    moves drag.

(** *** Dates that may be Invalid

    [new Date(s)] is the Invalid Date, whose time value is [NaN], when the
    string [s] is not recognised as a date.  Below a [Date] object that may
    be Invalid is an [option Date], [None] being the Invalid Date, and a
    number that may be [NaN] is an [option Z].  Every getter of the Invalid
    Date returns [NaN] and every setter leaves it Invalid, so [startOfDay]
    and [addDays] map the Invalid Date to itself; a comparison with [NaN]
    is false, and [NaN !== 0] is true.  [toDate_any] and
    [normalizeEvent_any] follow [toDate] and [normalizeEvents] of
    [Calendar.tsx] through these cases; on events whose dates are valid
    they are [toDate] and [normalizeEvent] above. *)

(** [a <= b] and [a < b] on numbers that may be [NaN]. *)
Definition leNaN (a b : option Z) : bool :=
  match a, b with
  | Some x, Some y => x <=? y
  | _, _ => false
  end.

Definition ltNaN (a b : option Z) : bool :=
  match a, b with
  | Some x, Some y => x <? y
  | _, _ => false
  end.

(** [d.getTime()] *)
Definition getTime_any (d : option Date) : option Z := option_map getTime d.

Definition toDate_any (v : DateInput) : option Date :=
  match v with
  | OfDate d => Some (mkDate (getTime d))
  | OfString s =>
      if Date_parse_isNaN s then None else Some (mkDate (Date_parse s))
  end.

(** The callback of [events.map] in [normalizeEvents]. *)
Definition normalizeEvent_any (e : CalendarEvent.t) : NormalizedAny.t :=
  let start := option_map startOfDay (toDate_any (CalendarEvent.start e)) in
  let endRaw :=
    match CalendarEvent.end_ e with
    | Some v =>
        if truthyInput v then toDate_any v
        else option_map (fun s => addDays s 1) start
    | None => option_map (fun s => addDays s 1) start
    end in
  let endDay := option_map startOfDay endRaw in
  let hasTime :=
    match endRaw with
    | Some x =>
        negb (getHours x =? 0) || negb (getMinutes x =? 0)
        || negb (getSeconds x =? 0) || negb (getMilliseconds x =? 0)
    | None => true
    end in
  let end_ :=
    if hasTime then option_map (fun d => addDays d 1) endDay else endDay in
  let safeEnd :=
    if leNaN (getTime_any end_) (getTime_any start)
    then option_map (fun s => addDays s 1) start
    else end_ in
  NormalizedAny.mk
    (CalendarEvent.id e)
    (CalendarEvent.title e)
    start
    safeEnd
    (CalendarEvent.resourceId e)
    (CalendarEvent.color e)
    e.

Definition normalizeEvents_any (events : list CalendarEvent.t)
  : list NormalizedAny.t :=
  map normalizeEvent_any events.

(** The callback of the first [events.filter] of [renderEventsForSection],
    on events whose dates may be Invalid. *)
Definition visibleFilter_any (section : ViewSection.t) (ev : NormalizedAny.t)
  : bool :=
  if negb (truthy (NormalizedAny.resourceId ev)) then false
  else ltNaN (Some (getTime (ViewSection.start section)))
             (getTime_any (NormalizedAny.end_ ev))
       && ltNaN (getTime_any (NormalizedAny.start ev))
                (Some (getTime (ViewSection.end_ section))).

(** A normalized event with valid dates, among those that may not have
    them. *)
Definition withValidDates (n : NormalizedEvent.t) : NormalizedAny.t :=
  NormalizedAny.mk
    (NormalizedEvent.id n)
    (NormalizedEvent.title n)
    (Some (NormalizedEvent.start n))
    (Some (NormalizedEvent.end_ n))
    (NormalizedEvent.resourceId n)
    (NormalizedEvent.color n)
    (NormalizedEvent.raw n).

(** Whether [toDate(v)] is a valid date. *)
Definition isValid (v : DateInput) : bool :=
  match toDate_any v with
  | Some _ => true
  | None => false
  end.

(* ================================================================ *)
(** * Part II: properties                                            *)
(* ================================================================ *)

Ltac zdiv := Z.div_mod_to_equations; lia.

(** Case analysis on a month index known to lie in 0..11. *)
Ltac month_cases m :=
  let H := fresh "Hm" in
  assert (H : m = 0 \/ m = 1 \/ m = 2 \/ m = 3 \/ m = 4 \/ m = 5 \/ m = 6
              \/ m = 7 \/ m = 8 \/ m = 9 \/ m = 10 \/ m = 11) by lia;
  repeat (destruct H as [H | H]); rewrite H in *.

(** Evaluate [DaysBeforeMonth] at literal month indices. *)
Ltac table :=
  repeat match goal with
         | |- context [DaysBeforeMonth ?l (?a + 1)] =>
             let v := eval vm_compute in (a + 1) in change (a + 1) with v
         end;
  cbn [DaysBeforeMonth].

(** ** The civil calendar of ECMA-262 *)

Lemma Day_MakeDate (d tw : Z) :
  0 <= tw < msPerDay -> Day (MakeDate d tw) = d.
Proof. unfold Day, MakeDate, msPerDay. intros H. zdiv. Qed.

Lemma TimeWithinDay_MakeDate (d tw : Z) :
  0 <= tw < msPerDay -> TimeWithinDay (MakeDate d tw) = tw.
Proof. unfold TimeWithinDay, MakeDate, msPerDay. intros H. zdiv. Qed.

Lemma MakeDate_Day (t : Z) : MakeDate (Day t) (TimeWithinDay t) = t.
Proof. unfold MakeDate, Day, TimeWithinDay, msPerDay. zdiv. Qed.

Lemma TimeWithinDay_range (t : Z) : 0 <= TimeWithinDay t < msPerDay.
Proof. unfold TimeWithinDay, msPerDay. zdiv. Qed.

Lemma DayFromYear_bounds (y : Z) :
  146097 * (y - 1970) - 1000 <= 400 * DayFromYear y
    <= 146097 * (y - 1970) + 1000.
Proof. unfold DayFromYear. zdiv. Qed.

Lemma DayFromYear_mono (y1 y2 : Z) :
  y1 < y2 -> DayFromYear y1 < DayFromYear y2.
Proof.
  intros H.
  pose proof (DayFromYear_bounds y1). pose proof (DayFromYear_bounds y2). lia.
Qed.

(** [YearFromDay] returns the year whose first day is the last one not
    after [day]: the characterisation of [YearFromTime] in ECMA-262. *)
Lemma YearFromDay_spec (day : Z) :
  DayFromYear (YearFromDay day) <= day < DayFromYear (YearFromDay day + 1).
Proof.
  unfold YearFromDay.
  set (y0 := 1970 + day * 400 / 146097).
  assert (Hy0 : 146097 * (y0 - 1970) <= 400 * day
                < 146097 * (y0 - 1970) + 146097) by (subst y0; zdiv).
  clearbody y0.
  pose proof (DayFromYear_bounds (y0 - 1)).
  pose proof (DayFromYear_bounds (y0 + 1 + 1)).
  destruct (Z.ltb_spec day (DayFromYear y0)).
  - replace (y0 - 1 + 1) with y0 by lia. lia.
  - destruct (Z.leb_spec (DayFromYear (y0 + 1)) day); lia.
Qed.

Lemma YearFromDay_unique (day y : Z) :
  DayFromYear y <= day < DayFromYear (y + 1) -> YearFromDay day = y.
Proof.
  intros H. pose proof (YearFromDay_spec day) as S.
  destruct (Z.lt_trichotomy (YearFromDay day) y) as [L | [E | G]]; [| exact E |].
  - assert (DayFromYear (YearFromDay day + 1) <= DayFromYear y).
    { destruct (Z.eq_dec (YearFromDay day + 1) y) as [-> | N]; [lia |].
      apply Z.lt_le_incl, DayFromYear_mono. lia. }
    lia.
  - assert (DayFromYear (y + 1) <= DayFromYear (YearFromDay day)).
    { destruct (Z.eq_dec (y + 1) (YearFromDay day)) as [-> | N]; [lia |].
      apply Z.lt_le_incl, DayFromYear_mono. lia. }
    lia.
Qed.

Lemma DayFromYear_succ (y : Z) :
  DayFromYear (y + 1) = DayFromYear y + DaysInYear y.
Proof.
  assert (S4 : (y + 1 - 1969) / 4
               = (y - 1969) / 4 + (if y mod 4 =? 0 then 1 else 0))
    by (destruct (Z.eqb_spec (y mod 4) 0); zdiv).
  assert (S100 : (y + 1 - 1901) / 100
                 = (y - 1901) / 100 + (if y mod 100 =? 0 then 1 else 0))
    by (destruct (Z.eqb_spec (y mod 100) 0); zdiv).
  assert (S400 : (y + 1 - 1601) / 400
                 = (y - 1601) / 400 + (if y mod 400 =? 0 then 1 else 0))
    by (destruct (Z.eqb_spec (y mod 400) 0); zdiv).
  assert (M1 : y mod 100 = 0 -> y mod 4 = 0) by zdiv.
  assert (M2 : y mod 400 = 0 -> y mod 100 = 0) by zdiv.
  unfold DayFromYear, DaysInYear. rewrite S4, S100, S400.
  destruct (Z.eqb_spec (y mod 4) 0); destruct (Z.eqb_spec (y mod 100) 0);
    destruct (Z.eqb_spec (y mod 400) 0); cbn [negb]; lia.
Qed.

Lemma LeapOfYear_range (y : Z) : 0 <= LeapOfYear y <= 1.
Proof. unfold LeapOfYear. destruct (DaysInYear y =? 365); lia. Qed.

Lemma DaysInYear_leap (y : Z) : DaysInYear y = 365 + LeapOfYear y.
Proof.
  unfold LeapOfYear, DaysInYear.
  destruct (y mod 4 =? 0), (y mod 100 =? 0), (y mod 400 =? 0); reflexivity.
Qed.

Lemma DayWithinYear_range (t : Z) :
  0 <= DayWithinYear t < 365 + InLeapYear t.
Proof.
  unfold DayWithinYear, InLeapYear, YearFromTime.
  pose proof (YearFromDay_spec (Day t)) as S.
  rewrite DayFromYear_succ, DaysInYear_leap in S. lia.
Qed.

Lemma MonthFromTime_range (t : Z) : 0 <= MonthFromTime t <= 11.
Proof.
  unfold MonthFromTime.
  repeat match goal with
         | |- context [if ?b then _ else _] => destruct b
         end; lia.
Qed.

Lemma DateFromTime_eq (t : Z) :
  DateFromTime t
  = DayWithinYear t - DaysBeforeMonth (InLeapYear t) (MonthFromTime t) + 1.
Proof.
  unfold DateFromTime. pose proof (MonthFromTime_range t) as R.
  month_cases (MonthFromTime t); cbn [DaysBeforeMonth]; lia.
Qed.

Lemma DateFromTime_range (t : Z) :
  1 <= DateFromTime t <= DaysInMonth (YearFromTime t) (MonthFromTime t).
Proof.
  rewrite DateFromTime_eq. unfold DaysInMonth. fold (InLeapYear t).
  pose proof (DayWithinYear_range t) as R.
  pose proof (LeapOfYear_range (YearFromTime t)) as L. fold (InLeapYear t) in L.
  unfold MonthFromTime.
  repeat match goal with
         | |- context [if ?a <? ?b then _ else _] => destruct (Z.ltb_spec a b)
         end; table; lia.
Qed.

(** Re-assembling the civil date of a time value, with the day of the month
    moved by [n], moves the day number by [n]. *)
Lemma MakeDay_of_civil (t n : Z) :
  MakeDay (YearFromTime t) (MonthFromTime t) (DateFromTime t + n) = Day t + n.
Proof.
  unfold MakeDay. pose proof (MonthFromTime_range t) as R.
  rewrite DateFromTime_eq.
  replace (MonthFromTime t / 12) with 0 by zdiv.
  replace (MonthFromTime t mod 12) with (MonthFromTime t) by zdiv.
  rewrite Z.add_0_r. fold (InLeapYear t). unfold DayWithinYear. lia.
Qed.

Lemma MakeDay_carry (y m dt : Z) :
  MakeDay y m dt = MakeDay (y + m / 12) (m mod 12) dt.
Proof.
  unfold MakeDay.
  replace (m mod 12 / 12) with 0 by zdiv.
  replace (m mod 12 mod 12) with (m mod 12) by zdiv.
  now rewrite Z.add_0_r.
Qed.

Lemma MakeDay_in_range (y m dt : Z) :
  0 <= m <= 11 ->
  MakeDay y m dt = DayFromYear y + DaysBeforeMonth (LeapOfYear y) m + dt - 1.
Proof.
  intros Hm. unfold MakeDay.
  replace (m / 12) with 0 by zdiv. replace (m mod 12) with m by zdiv.
  now rewrite Z.add_0_r.
Qed.

Lemma DaysInMonth_range (y m : Z) :
  0 <= m <= 11 -> 28 <= DaysInMonth y m <= 31.
Proof.
  intros Hm. unfold DaysInMonth. pose proof (LeapOfYear_range y).
  month_cases m; table; lia.
Qed.

(** The civil date of the day [MakeDay y m dt] is [(y, m, dt)] whenever
    [dt] is a day of month [m]: the day [MakeDay] finds is the one ECMA-262
    asks for. *)
Lemma MakeDay_first (y m dt t : Z) :
  0 <= m <= 11 -> 1 <= dt <= DaysInMonth y m ->
  Day t = MakeDay y m dt ->
  YearFromTime t = y /\ MonthFromTime t = m /\ DateFromTime t = dt.
Proof.
  intros Hm Hdt Ht. rewrite MakeDay_in_range in Ht by exact Hm.
  pose proof (LeapOfYear_range y) as L.
  assert (B : 0 <= DaysBeforeMonth (LeapOfYear y) m + dt - 1 < 365 + LeapOfYear y).
  { unfold DaysInMonth in Hdt. revert Hdt. month_cases m; table; lia. }
  assert (Y : YearFromTime t = y).
  { unfold YearFromTime. apply YearFromDay_unique.
    rewrite DayFromYear_succ, DaysInYear_leap. lia. }
  assert (W : DayWithinYear t = DaysBeforeMonth (LeapOfYear y) m + dt - 1).
  { unfold DayWithinYear. rewrite Y. lia. }
  assert (M : MonthFromTime t = m).
  { unfold MonthFromTime, InLeapYear. rewrite Y, W.
    unfold DaysInMonth in Hdt. revert Hdt B.
    month_cases m; table; intros;
      repeat match goal with
             | |- context [if ?a <? ?b then _ else _] =>
                 destruct (Z.ltb_spec a b); try lia
             end. }
  split; [exact Y | split; [exact M |]].
  rewrite DateFromTime_eq. unfold InLeapYear. rewrite Y, M, W. lia.
Qed.

(** Day 0 of the following month is the last day of this month. *)
Lemma MakeDay_last (y m : Z) :
  0 <= m <= 11 -> MakeDay y (m + 1) 0 = MakeDay y m (DaysInMonth y m).
Proof.
  intros Hm. rewrite (MakeDay_in_range y m) by exact Hm. unfold DaysInMonth.
  destruct (Z.eq_dec m 11) as [-> | N].
  - unfold MakeDay. change ((11 + 1) / 12) with 1. change ((11 + 1) mod 12) with 0.
    rewrite DayFromYear_succ, DaysInYear_leap. table. lia.
  - rewrite MakeDay_in_range by lia. lia.
Qed.

(** The first of the following month comes right after the last day of
    this month. *)
Lemma MakeDay_next_month (y m : Z) :
  0 <= m <= 11 -> MakeDay y (m + 1) 1 = MakeDay y m (DaysInMonth y m) + 1.
Proof.
  intros Hm. rewrite <- MakeDay_last by exact Hm. unfold MakeDay. lia.
Qed.

(** ** The [Date] methods in a fixed-offset zone *)

Lemma LocalTime_UTC (t : Z) : LocalTime (UTC t) = t.
Proof. unfold LocalTime, UTC. lia. Qed.

Lemma getTime_addDays (d : Date) (n : Z) :
  getTime (addDays d n) = getTime d + n * msPerDay.
Proof.
  unfold addDays, setDate, getDate. cbn [getTime].
  rewrite MakeDay_of_civil. unfold UTC.
  pose proof (MakeDate_Day (LocalTime (getTime d))) as E.
  unfold MakeDate in *. unfold LocalTime in *. lia.
Qed.

Lemma addDays_eq (d : Date) (n : Z) :
  addDays d n = mkDate (getTime d + n * msPerDay).
Proof.
  rewrite <- getTime_addDays. now destruct (addDays d n).
Qed.

Lemma localTime_startOfDay (d : Date) :
  localTime (startOfDay d) = localDay d * msPerDay.
Proof.
  unfold localTime, localDay, localTime, startOfDay, setHours. cbn [getTime].
  rewrite LocalTime_UTC. unfold MakeDate, MakeTime. lia.
Qed.

Lemma getTime_startOfDay (d : Date) :
  getTime (startOfDay d) = getTime d - TimeWithinDay (localTime d).
Proof.
  pose proof (localTime_startOfDay d) as E.
  pose proof (MakeDate_Day (localTime d)) as F.
  unfold localDay, MakeDate, localTime, LocalTime in *. lia.
Qed.

Lemma atMidnight_startOfDay (d : Date) : atMidnight (startOfDay d).
Proof.
  unfold atMidnight. rewrite localTime_startOfDay.
  unfold TimeWithinDay, msPerDay. zdiv.
Qed.

Lemma startOfDay_midnight (d : Date) : atMidnight d -> startOfDay d = d.
Proof.
  intros H. destruct d as [t].
  pose proof (getTime_startOfDay (mkDate t)) as E. rewrite H in E.
  destruct (startOfDay (mkDate t)) as [u]. cbn [getTime] in E. f_equal. lia.
Qed.

Lemma localDay_startOfDay (d : Date) : localDay (startOfDay d) = localDay d.
Proof.
  unfold localDay at 1. rewrite localTime_startOfDay.
  unfold Day, msPerDay. zdiv.
Qed.

Lemma atMidnight_addDays (d : Date) (n : Z) :
  atMidnight d -> atMidnight (addDays d n).
Proof.
  unfold atMidnight, localTime. rewrite getTime_addDays.
  unfold TimeWithinDay, LocalTime, msPerDay. intros H. zdiv.
Qed.

Lemma localDay_addDays (d : Date) (n : Z) :
  localDay (addDays d n) = localDay d + n.
Proof.
  unfold localDay, localTime. rewrite getTime_addDays.
  unfold Day, LocalTime, msPerDay. zdiv.
Qed.

(** On whole days the rounding of [diffDays] has nothing to round. *)
Lemma diffDays_localDay (a b : Date) : diffDays a b = localDay a - localDay b.
Proof.
  unfold diffDays.
  pose proof (localTime_startOfDay a) as A.
  pose proof (localTime_startOfDay b) as B.
  unfold localTime, LocalTime in A, B.
  replace (getTime (startOfDay a) - getTime (startOfDay b))
    with ((localDay a - localDay b) * msPerDay) by lia.
  unfold Math_round_div, msPerDay. change (24 * 60 * 60 * 1000) with 86400000.
  generalize (localDay a - localDay b). intros k. zdiv.
Qed.

Lemma getTime_midnight (d : Date) :
  atMidnight d -> getTime d = localDay d * msPerDay - LocalTZA.
Proof.
  unfold atMidnight, localDay. intros H.
  pose proof (MakeDate_Day (localTime d)) as E. rewrite H in E.
  unfold MakeDate, localTime, LocalTime in *. lia.
Qed.

Lemma midnight_le (a b : Date) :
  atMidnight a -> atMidnight b ->
  (getTime a <=? getTime b) = (localDay a <=? localDay b).
Proof.
  intros Ha Hb. rewrite (getTime_midnight a Ha), (getTime_midnight b Hb).
  unfold msPerDay.
  destruct (Z.leb_spec (localDay a) (localDay b));
    [apply Z.leb_le | apply Z.leb_gt]; lia.
Qed.

Lemma midnight_lt (a b : Date) :
  atMidnight a -> atMidnight b ->
  getTime a < getTime b <-> localDay a < localDay b.
Proof.
  intros Ha Hb. rewrite (getTime_midnight a Ha), (getTime_midnight b Hb).
  unfold msPerDay. lia.
Qed.

(** The four getters of [hasTime] are all zero exactly at local midnight. *)
Lemma time_fields_zero (t : Z) :
  negb (HourFromTime t =? 0) || negb (MinFromTime t =? 0)
    || negb (SecFromTime t =? 0) || negb (msFromTime t =? 0)
  = negb (TimeWithinDay t =? 0).
Proof.
  unfold HourFromTime, MinFromTime, SecFromTime, msFromTime, TimeWithinDay,
    msPerHour, msPerMinute, msPerSecond, msPerDay.
  destruct (Z.eqb_spec (t mod 86400000) 0) as [E | E]; cbn [negb].
  - assert (H1 : t / 3600000 mod 24 = 0) by zdiv.
    assert (H2 : t / 60000 mod 60 = 0) by zdiv.
    assert (H3 : t / 1000 mod 60 = 0) by zdiv.
    assert (H4 : t mod 1000 = 0) by zdiv.
    rewrite H1, H2, H3, H4. reflexivity.
  - destruct (Z.eqb_spec (t / 3600000 mod 24) 0) as [H1 | H1]; [| reflexivity].
    destruct (Z.eqb_spec (t / 60000 mod 60) 0) as [H2 | H2]; [| reflexivity].
    destruct (Z.eqb_spec (t / 1000 mod 60) 0) as [H3 | H3]; [| reflexivity].
    destruct (Z.eqb_spec (t mod 1000) 0) as [H4 | H4]; [| reflexivity].
    exfalso. apply E. zdiv.
Qed.

(** ** Event normalizer *)

(** The end of a normalized event, from the end's raw date [endRaw] and
    the floored start [st]. *)
Lemma safeEnd_canonical (st endRaw : Date) :
  atMidnight st ->
  let endDay := startOfDay endRaw in
  let hasTime :=
    negb (getHours endRaw =? 0) || negb (getMinutes endRaw =? 0)
    || negb (getSeconds endRaw =? 0) || negb (getMilliseconds endRaw =? 0) in
  let end_ := if hasTime then addDays endDay 1 else endDay in
  let safeEnd :=
    if getTime end_ <=? getTime st then addDays st 1 else end_ in
  let roundedDay :=
    if TimeWithinDay (localTime endRaw) =? 0 then localDay endRaw
    else localDay endRaw + 1 in
  atMidnight safeEnd
  /\ localDay safeEnd
     = (if roundedDay <=? localDay st then localDay st + 1 else roundedDay)
  /\ getTime st < getTime safeEnd.
Proof.
  intros Ms endDay hasTime end_ safeEnd roundedDay.
  assert (Hh : hasTime = negb (TimeWithinDay (localTime endRaw) =? 0))
    by apply time_fields_zero.
  assert (Me : atMidnight end_).
  { subst end_ endDay. destruct hasTime;
      [apply atMidnight_addDays |]; apply atMidnight_startOfDay. }
  assert (De : localDay end_ = roundedDay).
  { subst end_ endDay roundedDay. rewrite Hh.
    destruct (TimeWithinDay (localTime endRaw) =? 0); cbn [negb].
    - apply localDay_startOfDay.
    - rewrite localDay_addDays, localDay_startOfDay. reflexivity. }
  assert (M1 : atMidnight (addDays st 1)) by now apply atMidnight_addDays.
  assert (D1 : localDay (addDays st 1) = localDay st + 1)
    by apply localDay_addDays.
  subst safeEnd. rewrite (midnight_le _ _ Me Ms), De.
  destruct (Z.leb_spec roundedDay (localDay st)) as [L | L].
  - split; [exact M1 | split; [exact D1 |]].
    apply (midnight_lt _ _ Ms M1). lia.
  - split; [exact Me | split; [exact De |]].
    apply (midnight_lt _ _ Ms Me). lia.
Qed.

Lemma normalizeEvent_canonical (e : CalendarEvent.t) :
  Canonical e (normalizeEvent e).
Proof.
  unfold Canonical, normalizeEvent, canonicalEndDay, givenEnd.
  cbn [NormalizedEvent.start NormalizedEvent.end_ NormalizedEvent.id
       NormalizedEvent.title NormalizedEvent.resourceId NormalizedEvent.color
       NormalizedEvent.raw].
  set (s := toDate (CalendarEvent.start e)).
  set (st := startOfDay s).
  assert (Ms : atMidnight st) by apply atMidnight_startOfDay.
  assert (Ds : localDay st = localDay s) by apply localDay_startOfDay.
  assert (M1 : atMidnight (addDays st 1)) by now apply atMidnight_addDays.
  assert (D1 : localDay (addDays st 1) = localDay s + 1)
    by (rewrite localDay_addDays; lia).
  (* without an end the raw end is the following midnight itself *)
  assert (Absent :
    (if (if TimeWithinDay (localTime (addDays st 1)) =? 0
         then localDay (addDays st 1) else localDay (addDays st 1) + 1)
        <=? localDay st
     then localDay st + 1
     else (if TimeWithinDay (localTime (addDays st 1)) =? 0
           then localDay (addDays st 1) else localDay (addDays st 1) + 1))
    = localDay s + 1).
  { unfold atMidnight in M1. rewrite M1, D1, Ds. change (0 =? 0) with true.
    cbv iota. destruct (Z.leb_spec (localDay s + 1) (localDay s)); lia. }
  split; [exact Ms | split; [exact Ds |]].
  destruct (CalendarEvent.end_ e) as [v |]; [destruct (truthyInput v) |].
  - destruct (safeEnd_canonical st (toDate v) Ms) as (A & B & C).
    rewrite Ds in B. split; [exact A | split; [exact B | split; [exact C |]]].
    now repeat (split; [reflexivity |]).
  - destruct (safeEnd_canonical st (addDays st 1) Ms) as (A & B & C).
    rewrite Absent in B. split; [exact A | split; [exact B | split; [exact C |]]].
    now repeat (split; [reflexivity |]).
  - destruct (safeEnd_canonical st (addDays st 1) Ms) as (A & B & C).
    rewrite Absent in B. split; [exact A | split; [exact B | split; [exact C |]]].
    now repeat (split; [reflexivity |]).
Qed.

(** With valid dates the normalizer maps the raw events, one for one and
    in order, to canonical events. *)
Lemma normalizeEvents_canonical (events : list CalendarEvent.t) :
  Forall2 Canonical events (normalizeEvents events).
Proof.
  unfold normalizeEvents.
  induction events as [| e rest IH]; cbn [map]; constructor.
  - apply normalizeEvent_canonical.
  - exact IH.
Qed.

(** *** Dates that may be Invalid *)

Lemma toDate_any_valid (v : DateInput) :
  isValid v = true -> toDate_any v = Some (toDate v).
Proof.
  unfold isValid, toDate_any, toDate. destruct v as [s | d]; [| reflexivity].
  now destruct (Date_parse_isNaN s).
Qed.

Lemma toDate_any_invalid (v : DateInput) :
  isValid v = false -> toDate_any v = None.
Proof.
  unfold isValid. now destruct (toDate_any v).
Qed.

(** On an event whose dates are valid the normalizer is the one of the
    valid dates. *)
Lemma normalizeEvent_any_valid (e : CalendarEvent.t) :
  isValid (CalendarEvent.start e) = true ->
  (forall v : DateInput, givenEnd e = Some v -> isValid v = true) ->
  normalizeEvent_any e = withValidDates (normalizeEvent e).
Proof.
  intros Hs He. unfold normalizeEvent_any, normalizeEvent, withValidDates.
  cbn [NormalizedEvent.id NormalizedEvent.title NormalizedEvent.start
       NormalizedEvent.end_ NormalizedEvent.resourceId NormalizedEvent.color
       NormalizedEvent.raw].
  rewrite (toDate_any_valid _ Hs). cbn [option_map].
  set (st := startOfDay (toDate (CalendarEvent.start e))).
  assert (E : match CalendarEvent.end_ e with
              | Some v =>
                  if truthyInput v then toDate_any v else Some (addDays st 1)
              | None => Some (addDays st 1)
              end
              = Some match CalendarEvent.end_ e with
                     | Some v => if truthyInput v then toDate v else addDays st 1
                     | None => addDays st 1
                     end).
  { unfold givenEnd in He. destruct (CalendarEvent.end_ e) as [v |];
      [| reflexivity].
    destruct (truthyInput v); [| reflexivity].
    apply toDate_any_valid, He. reflexivity. }
  rewrite E.
  set (endRaw := match CalendarEvent.end_ e with
                 | Some v => if truthyInput v then toDate v else addDays st 1
                 | None => addDays st 1
                 end).
  cbn [option_map].
  set (hasTime := negb (getHours endRaw =? 0) || negb (getMinutes endRaw =? 0)
                  || negb (getSeconds endRaw =? 0)
                  || negb (getMilliseconds endRaw =? 0)).
  destruct hasTime; cbn [option_map getTime_any leNaN].
  - now destruct (getTime (addDays (startOfDay endRaw) 1) <=? getTime st).
  - now destruct (getTime (startOfDay endRaw) <=? getTime st).
Qed.

(** An event with an Invalid date never passes the filter of the
    projector, and on the others the filter is [visibleFilter]. *)
Lemma visibleFilter_any_valid (section : ViewSection.t) (n : NormalizedEvent.t) :
  visibleFilter_any section (withValidDates n) = visibleFilter section n.
Proof. reflexivity. Qed.

Lemma visibleFilter_any_inv (section : ViewSection.t) (a : NormalizedAny.t) :
  visibleFilter_any section a = true ->
  exists s e : Date,
    NormalizedAny.start a = Some s /\ NormalizedAny.end_ a = Some e.
Proof.
  unfold visibleFilter_any.
  destruct (negb (truthy (NormalizedAny.resourceId a))); [discriminate |].
  destruct (NormalizedAny.end_ a) as [e |]; [| discriminate].
  destruct (NormalizedAny.start a) as [s |].
  - intros _. now exists s, e.
  - cbn [getTime_any option_map ltNaN]. rewrite andb_false_r. discriminate.
Qed.

Lemma never_drawn (section : ViewSection.t) (a : NormalizedAny.t) :
  NormalizedAny.start a = None \/ NormalizedAny.end_ a = None ->
  visibleFilter_any section a = false.
Proof.
  intros H. destruct (visibleFilter_any section a) eqn:F; [| reflexivity].
  apply visibleFilter_any_inv in F as (s & e & Hs & He).
  destruct H as [H | H]; congruence.
Qed.

(** The end of a normalized event whose raw end is given and is no date. *)
Lemma normalizeEvent_any_invalid_end (e : CalendarEvent.t) (v : DateInput) :
  givenEnd e = Some v -> isValid v = false ->
  NormalizedAny.end_ (normalizeEvent_any e) = None.
Proof.
  intros G I. unfold givenEnd in G.
  destruct (CalendarEvent.end_ e) as [w |] eqn:E; [| discriminate].
  destruct (truthyInput w) eqn:T; [| discriminate]. injection G as ->.
  unfold normalizeEvent_any. cbn [NormalizedAny.end_].
  rewrite E, T, (toDate_any_invalid _ I). reflexivity.
Qed.

(** C1. [normalizeEvents] maps the raw events one for one and in order.
    On a raw event whose start and end, when one is given, are valid dates
    the claim holds: the event is canonical - the start is the input start
    floored to local midnight; without an end the canonical end is the start
    plus one day; an end with a time of day is floored to its day and
    rounded up to the following midnight; an end obtained this way that is
    not after the start is replaced by start plus one day; hence
    end > start.  On a raw event whose end is given and is no date the
    claim fails: the guard [end <= start] compares with [NaN] and does not
    fire, the canonical end is the Invalid Date instead of start plus one
    day, [start < end] is false, and the event passes the filter of no
    section.  A start that is no date leaves the canonical start Invalid. *)
Theorem normalizeEvents_canonical_unless_invalid
    (events : list CalendarEvent.t) :
  Forall2
    (fun (e : CalendarEvent.t) (n : NormalizedAny.t) =>
       (isValid (CalendarEvent.start e) = true ->
        (forall v : DateInput, givenEnd e = Some v -> isValid v = true) ->
        exists c : NormalizedEvent.t, n = withValidDates c /\ Canonical e c)
       /\ (forall v : DateInput,
             givenEnd e = Some v -> isValid v = false ->
             NormalizedAny.end_ n = None
             /\ NormalizedAny.start n
                = option_map startOfDay (toDate_any (CalendarEvent.start e))
             /\ ltNaN (getTime_any (NormalizedAny.start n))
                      (getTime_any (NormalizedAny.end_ n)) = false
             /\ forall section : ViewSection.t,
                  visibleFilter_any section n = false)
       /\ (isValid (CalendarEvent.start e) = false ->
           NormalizedAny.start n = None
           /\ forall section : ViewSection.t,
                visibleFilter_any section n = false)
       /\ NormalizedAny.id n = CalendarEvent.id e
       /\ NormalizedAny.title n = CalendarEvent.title e
       /\ NormalizedAny.resourceId n = CalendarEvent.resourceId e
       /\ NormalizedAny.color n = CalendarEvent.color e
       /\ NormalizedAny.raw n = e)
    events (normalizeEvents_any events).
Proof.
  unfold normalizeEvents_any.
  induction events as [| e rest IH]; cbn [map]; constructor; [| exact IH].
  split; [| split; [| split]].
  - intros Hs He. exists (normalizeEvent e).
    split; [now apply normalizeEvent_any_valid |].
    apply normalizeEvent_canonical.
  - intros v G I.
    pose proof (normalizeEvent_any_invalid_end e v G I) as En.
    split; [exact En | split; [reflexivity | split]].
    + rewrite En. unfold ltNaN.
      now destruct (getTime_any (NormalizedAny.start (normalizeEvent_any e))).
    + intros section. apply never_drawn. now right.
  - intros I.
    assert (Sn : NormalizedAny.start (normalizeEvent_any e) = None).
    { unfold normalizeEvent_any. cbn [NormalizedAny.start].
      now rewrite (toDate_any_invalid _ I). }
    split; [exact Sn |]. intros section. apply never_drawn. now left.
  - now repeat (split; [reflexivity |]).
Qed.

(** ** View partitioner *)

Lemma length_dayRun (first : Date) (n : nat) : List.length (dayRun first n) = n.
Proof. unfold dayRun. now rewrite length_map, length_seq. Qed.

Lemma nth_error_dayRun (first : Date) (n i : nat) :
  (i < n)%nat ->
  nth_error (dayRun first n) i = Some (addDays first (Z.of_nat i)).
Proof.
  intros H. unfold dayRun.
  rewrite nth_error_map, nth_error_seq.
  destruct (Nat.ltb_spec i n); [| lia]. cbn. now rewrite addDays_eq.
Qed.

Lemma nth_error_dayRun_inv (first : Date) (n i : nat) (d : Date) :
  nth_error (dayRun first n) i = Some d ->
  (i < n)%nat /\ d = addDays first (Z.of_nat i).
Proof.
  intros H.
  assert (L : (i < n)%nat).
  { rewrite <- (length_dayRun first n). apply nth_error_Some. congruence. }
  rewrite nth_error_dayRun in H by exact L. split; [exact L | congruence].
Qed.

Lemma at_index_dayRun (first : Date) (n : nat) (i : Z) :
  0 <= i < Z.of_nat n ->
  at_index (dayRun first n) i = Some (addDays first i).
Proof.
  intros H. unfold at_index. destruct (Z.ltb_spec i 0); [lia |].
  rewrite nth_error_dayRun by lia. now rewrite Z2Nat.id by lia.
Qed.

Lemma addDays_addDays (d : Date) (a b : Z) :
  addDays (addDays d a) b = addDays d (a + b).
Proof. rewrite !addDays_eq. cbn [getTime]. f_equal. lia. Qed.

Lemma addDays_0 (d : Date) : addDays d 0 = d.
Proof. rewrite addDays_eq. destruct d as [t]. cbn [getTime]. f_equal. lia. Qed.

Lemma contiguous_dayRun (first : Date) (n : nat) : contiguous (dayRun first n).
Proof.
  intros i a b Ha Hb.
  apply nth_error_dayRun_inv in Ha as [_ ->].
  apply nth_error_dayRun_inv in Hb as [_ ->].
  rewrite addDays_addDays, !getTime_addDays. split; [f_equal |]; lia.
Qed.

Lemma SectionInv_dayRun (first : Date) (n : nat) :
  atMidnight first -> (0 < n)%nat ->
  SectionInv (ViewSection.mk first (addDays first (Z.of_nat n)) (dayRun first n)).
Proof.
  intros M Hn. unfold SectionInv.
  cbn [ViewSection.days ViewSection.start ViewSection.end_].
  split; [| split; [apply contiguous_dayRun | split]].
  - apply Forall_forall. intros d Hd. apply In_nth_error in Hd as [i Hi].
    apply nth_error_dayRun_inv in Hi as [_ ->]. now apply atMidnight_addDays.
  - rewrite nth_error_dayRun by exact Hn. now rewrite addDays_0.
  - exists (addDays first (Z.of_nat (n - 1))). rewrite length_dayRun. split.
    + apply nth_error_dayRun. lia.
    + rewrite startOfDay_midnight by now apply atMidnight_addDays.
      rewrite addDays_addDays. f_equal. lia.
Qed.

(** The Monday on or before the day of [anchor]. *)
Lemma weekDays_dayRun (anchor : Date) :
  weekDays anchor
  = dayRun (addDays (startOfDay anchor)
              (- ((getDay (startOfDay anchor) + 6) mod 7))) 7.
Proof.
  unfold weekDays, Array_from, dayRun. apply map_ext.
  intros i. apply addDays_eq.
Qed.

Lemma getDate_last_of_month (y m : Z) :
  0 <= m <= 11 ->
  getDate (Date_ymd y (m + 1) 0) = DaysInMonth (MakeFullYear y) m.
Proof.
  intros Hm. unfold getDate, Date_ymd. cbn [getTime]. rewrite LocalTime_UTC.
  pose proof (DaysInMonth_range (MakeFullYear y) m Hm) as R.
  apply (MakeDay_first (MakeFullYear y) m); [exact Hm | lia |].
  rewrite Day_MakeDate by (unfold MakeTime, msPerDay; lia).
  now apply MakeDay_last.
Qed.

Lemma monthDays_dayRun (anchor : Date) :
  monthDays anchor
  = dayRun (Date_ymd (getFullYear anchor) (getMonth anchor) 1)
      (Z.to_nat (DaysInMonth (MakeFullYear (getFullYear anchor))
                   (getMonth anchor))).
Proof.
  unfold monthDays.
  assert (Hm : 0 <= getMonth anchor <= 11) by apply MonthFromTime_range.
  rewrite getDate_last_of_month by exact Hm.
  unfold dayRun. rewrite <- seq_shift, map_map. apply map_ext.
  intros i. unfold Date_ymd, UTC, MakeDate, MakeDay. cbn [getTime].
  f_equal. lia.
Qed.

Lemma atMidnight_Date_ymd (y m d : Z) : atMidnight (Date_ymd y m d).
Proof.
  unfold atMidnight, localTime, Date_ymd. cbn [getTime].
  rewrite LocalTime_UTC. unfold TimeWithinDay, MakeDate, MakeTime, msPerDay.
  zdiv.
Qed.

Lemma getViewModel_day (activeDate : Date) :
  getViewModel activeDate vDay
  = Some (mkViewModel
            (ViewSection.mk (startOfDay activeDate)
               (addDays (startOfDay activeDate) 1)
               (dayRun (startOfDay activeDate) 1))).
Proof.
  unfold getViewModel, dayOnly, dayRun. cbn [at_index Z.ltb Z.compare
    Z.to_nat nth_error seq map Z.of_nat].
  rewrite Z.mul_0_l, Z.add_0_r. now destruct (startOfDay activeDate).
Qed.

Lemma getViewModel_week (activeDate : Date) :
  let monday :=
    addDays (startOfDay activeDate)
      (- ((getDay (startOfDay activeDate) + 6) mod 7)) in
  getViewModel activeDate vWeek
  = Some (mkViewModel
            (ViewSection.mk monday (addDays monday 7) (dayRun monday 7))).
Proof.
  intros monday. unfold getViewModel. rewrite weekDays_dayRun. fold monday.
  rewrite at_index_dayRun by (cbn; lia). now rewrite addDays_0.
Qed.

Lemma at_index_dayRun_first (first : Date) (n : nat) :
  (0 < n)%nat -> at_index (dayRun first n) 0 = Some first.
Proof.
  intros Hn. rewrite at_index_dayRun by lia. now rewrite addDays_0.
Qed.

Lemma at_index_dayRun_last (first : Date) (n : nat) :
  (0 < n)%nat ->
  at_index (dayRun first n) (Z.of_nat (List.length (dayRun first n)) - 1)
  = Some (addDays first (Z.of_nat n - 1)).
Proof.
  intros Hn. rewrite length_dayRun. apply at_index_dayRun. lia.
Qed.

Lemma end_of_dayRun (first : Date) (n : Z) :
  atMidnight first ->
  addDays (startOfDay (addDays first (n - 1))) 1 = addDays first n.
Proof.
  intros M. rewrite startOfDay_midnight by now apply atMidnight_addDays.
  rewrite addDays_addDays. f_equal. lia.
Qed.

Lemma DaysInMonth_pos (y m : Z) :
  0 <= m <= 11 -> (0 < Z.to_nat (DaysInMonth y m))%nat.
Proof. intros Hm. pose proof (DaysInMonth_range y m Hm). lia. Qed.

(** The month branch, which the year view falls into as well. *)
Lemma getViewModel_month (activeDate : Date) (view : CalendarView) :
  view = vMonth \/ view = vYear ->
  getViewModel activeDate view
  = Some (mkViewModel
            (monthSectionOf (getFullYear activeDate) (getMonth activeDate))).
Proof.
  intros Hv.
  assert (Hm : 0 <= getMonth activeDate <= 11) by apply MonthFromTime_range.
  assert (E : getViewModel activeDate view
              = match at_index (monthDays activeDate) 0,
                      at_index (monthDays activeDate)
                        (Z.of_nat (List.length (monthDays activeDate)) - 1)
                with
                | Some a, Some b =>
                    Some (mkViewModel
                            (ViewSection.mk (startOfDay a)
                               (addDays (startOfDay b) 1)
                               (monthDays activeDate)))
                | _, _ => None
                end) by (destruct Hv as [-> | ->]; reflexivity).
  rewrite E, monthDays_dayRun.
  rewrite at_index_dayRun_first, at_index_dayRun_last
    by now apply DaysInMonth_pos.
  rewrite end_of_dayRun by apply atMidnight_Date_ymd.
  rewrite startOfDay_midnight by apply atMidnight_Date_ymd.
  reflexivity.
Qed.

Lemma MakeFullYear_idem (y : Z) : MakeFullYear (MakeFullYear y) = MakeFullYear y.
Proof.
  unfold MakeFullYear.
  destruct ((0 <=? y) && (y <=? 99)) eqn:E; [| now rewrite E].
  apply andb_prop in E as [E1 E2]. apply Z.leb_le in E1, E2.
  destruct (Z.leb_spec (1900 + y) 99); [lia |]. now rewrite andb_false_r.
Qed.

(** The civil date of [new Date(y, m, 1)] for a month index in range. *)
Lemma civil_Date_ymd_first (y m : Z) :
  0 <= m <= 11 ->
  getFullYear (Date_ymd y m 1) = MakeFullYear y
  /\ getMonth (Date_ymd y m 1) = m
  /\ getDate (Date_ymd y m 1) = 1.
Proof.
  intros Hm. unfold getFullYear, getMonth, getDate, Date_ymd. cbn [getTime].
  rewrite LocalTime_UTC.
  pose proof (DaysInMonth_range (MakeFullYear y) m Hm) as R.
  apply MakeDay_first; [exact Hm | lia |].
  apply Day_MakeDate. unfold MakeTime, msPerDay. lia.
Qed.

Lemma monthSectionOf_MakeFullYear (y m : Z) :
  monthSectionOf (MakeFullYear y) m = monthSectionOf y m.
Proof.
  unfold monthSectionOf, Date_ymd. now rewrite MakeFullYear_idem.
Qed.

Lemma sequence_map_Some {A B : Type} (f : A -> B) (xs : list A) :
  sequence (map (fun x => Some (f x)) xs) = Some (map f xs).
Proof.
  induction xs as [| x rest IH]; cbn [map sequence]; [reflexivity |].
  now rewrite IH.
Qed.

Lemma getYearSections_eq (activeDate : Date) :
  getYearSections activeDate
  = Some (Array_from 12 (monthSectionOf (getFullYear activeDate))).
Proof.
  unfold getYearSections, Array_from.
  rewrite <- sequence_map_Some. f_equal. apply map_ext_in.
  intros i Hi. apply in_seq in Hi.
  assert (Hm : 0 <= Z.of_nat i <= 11) by lia.
  destruct (civil_Date_ymd_first (getFullYear activeDate) _ Hm) as (Y & M & _).
  rewrite monthDays_dayRun, Y, M, MakeFullYear_idem.
  rewrite at_index_dayRun_first, at_index_dayRun_last
    by now apply DaysInMonth_pos.
  rewrite end_of_dayRun by apply atMidnight_Date_ymd.
  rewrite startOfDay_midnight by apply atMidnight_Date_ymd.
  f_equal. rewrite <- (monthSectionOf_MakeFullYear (getFullYear activeDate)).
  unfold monthSectionOf. now rewrite MakeFullYear_idem.
Qed.

Lemma SectionInv_monthSectionOf (y m : Z) :
  0 <= m <= 11 -> SectionInv (monthSectionOf y m).
Proof.
  intros Hm. unfold monthSectionOf. apply SectionInv_dayRun.
  - apply atMidnight_Date_ymd.
  - now apply DaysInMonth_pos.
Qed.

(** C5. For every active date and every view, each section the
    partitioner produces has a non-empty run of calendar days that is
    contiguous and ascending ([days[i+1] = days[i] + 1 day], one day being
    86400000 ms), starts at its first day, and ends at the start of its
    last day plus one day. *)
Theorem sections_contiguous (activeDate : Date) (view : CalendarView) :
  exists ss : list ViewSection.t,
    sections activeDate view = Some ss
    /\ (0 < List.length ss)%nat
    /\ Forall SectionInv ss.
Proof.
  unfold sections. destruct view.
  - rewrite getViewModel_day. eexists. split; [reflexivity |].
    split; [cbn; lia |]. constructor; [| constructor]. cbn [section].
    apply (SectionInv_dayRun _ 1); [apply atMidnight_startOfDay | lia].
  - rewrite getViewModel_week. eexists. split; [reflexivity |].
    split; [cbn; lia |]. constructor; [| constructor]. cbn [section].
    apply (SectionInv_dayRun _ 7);
      [apply atMidnight_addDays, atMidnight_startOfDay | lia].
  - rewrite getViewModel_month by now left. eexists. split; [reflexivity |].
    split; [cbn; lia |]. constructor; [| constructor]. cbn [section].
    apply SectionInv_monthSectionOf, MonthFromTime_range.
  - rewrite getViewModel_month by now right. rewrite getYearSections_eq.
    eexists. split; [reflexivity |]. split; [cbn; lia |].
    unfold Array_from. apply Forall_forall. intros s Hs.
    apply in_map_iff in Hs as (i & <- & Hi). apply in_seq in Hi.
    apply SectionInv_monthSectionOf. lia.
Qed.

Lemma getDay_localDay (d : Date) : getDay d = (localDay d + 4) mod 7.
Proof. reflexivity. Qed.

Lemma getDay_startOfDay (d : Date) : getDay (startOfDay d) = getDay d.
Proof. now rewrite !getDay_localDay, localDay_startOfDay. Qed.

Lemma dayRun_7 (first : Date) :
  dayRun first 7
  = [first; addDays first 1; addDays first 2; addDays first 3;
     addDays first 4; addDays first 5; addDays first 6].
Proof.
  rewrite <- (addDays_0 first) at 2. rewrite !addDays_eq. reflexivity.
Qed.

(** C7. The week partition is a single section of exactly seven
    consecutive days; its first day is a local midnight that falls on a
    Monday ([getDay] = 1), lies at most six days before the active date,
    so that the week contains the active date, and is obtained from the
    day of the active date by stepping back [(weekday + 6) % 7] days.
    Nothing in the computation reads a locale. *)
Theorem week_starts_on_monday (activeDate : Date) :
  exists monday : Date,
    sections activeDate vWeek
    = Some [ViewSection.mk monday (addDays monday 7)
              [monday; addDays monday 1; addDays monday 2; addDays monday 3;
               addDays monday 4; addDays monday 5; addDays monday 6]]
    /\ getDay monday = 1
    /\ atMidnight monday
    /\ monday = addDays (startOfDay activeDate)
                  (- ((getDay activeDate + 6) mod 7))
    /\ getTime monday <= getTime activeDate < getTime (addDays monday 7).
Proof.
  exists (addDays (startOfDay activeDate) (- ((getDay activeDate + 6) mod 7))).
  split; [| split; [| split; [| split]]].
  - unfold sections. rewrite getViewModel_week. cbn [section].
    rewrite dayRun_7, getDay_startOfDay. reflexivity.
  - rewrite getDay_localDay, localDay_addDays, localDay_startOfDay.
    rewrite getDay_localDay. generalize (localDay activeDate). intros k.
    zdiv.
  - apply atMidnight_addDays, atMidnight_startOfDay.
  - reflexivity.
  - rewrite !getTime_addDays, getTime_startOfDay.
    pose proof (TimeWithinDay_range (localTime activeDate)) as R.
    assert (0 <= (getDay activeDate + 6) mod 7 <= 6) by zdiv.
    unfold msPerDay in *. lia.
Qed.

Lemma MakeDay_date (y m d : Z) : MakeDay y m d = MakeDay y m 1 + d - 1.
Proof. unfold MakeDay. lia. Qed.

Lemma nth_error_Array_from {A : Type} (n i : nat) (f : Z -> A) :
  (i < n)%nat -> nth_error (Array_from n f) i = Some (f (Z.of_nat i)).
Proof.
  intros H. unfold Array_from. rewrite nth_error_map, nth_error_seq.
  destruct (Nat.ltb_spec i n); [reflexivity | lia].
Qed.






(** ** Visibility projector *)

Lemma findIndex_range {A : Type} (p : A -> bool) (xs : list A) :
  -1 <= findIndex p xs < Z.of_nat (List.length xs).
Proof.
  induction xs as [| x rest IH]; cbn [findIndex List.length]; [lia |].
  destruct (p x); [lia |].
  destruct (Z.ltb_spec (findIndex p rest) 0); lia.
Qed.

Lemma findIndex_existsb {A : Type} (p : A -> bool) (xs : list A) :
  (0 <=? findIndex p xs) = existsb p xs.
Proof.
  induction xs as [| x rest IH]; cbn [findIndex existsb]; [reflexivity |].
  destruct (p x); [reflexivity |]. cbn [orb]. rewrite <- IH.
  pose proof (findIndex_range p rest).
  destruct (Z.ltb_spec (findIndex p rest) 0);
    destruct (Z.leb_spec 0 (findIndex p rest)); try lia; reflexivity.
Qed.

Lemma visibleFilter_eq (section : ViewSection.t) (ev : NormalizedEvent.t) :
  visibleFilter section ev
  = truthy (NormalizedEvent.resourceId ev) && meets section ev.
Proof.
  unfold visibleFilter, meets.
  now destruct (truthy (NormalizedEvent.resourceId ev)).
Qed.

Lemma resourceIndex_position (section : ViewSection.t)
    (resources : list CalendarResource.t) (ev : NormalizedEvent.t) :
  (0 <=? Positioned.resourceIndex (position section resources ev))
  = knownResource resources (NormalizedEvent.resourceId ev).
Proof.
  unfold position, knownResource. cbn [Positioned.resourceIndex].
  rewrite findIndex_existsb. unfold sameId.
  destruct (NormalizedEvent.resourceId ev) as [s |]; [reflexivity |].
  induction resources as [| r rest IH]; [reflexivity | exact IH].
Qed.

(** The events of the descriptors are the input events that pass the
    three tests, in their input order. *)
Lemma visible_events (section : ViewSection.t)
    (resources : list CalendarResource.t) (events : list NormalizedEvent.t) :
  map Positioned.ev (visible section resources events)
  = filter (shown section resources) events.
Proof.
  unfold visible.
  induction events as [| ev rest IH]; [reflexivity |].
  cbn [filter]. unfold shown, shownBySpec at 1.
  rewrite visibleFilter_eq.
  destruct (truthy (NormalizedEvent.resourceId ev)) eqn:T; cbn [andb];
    [| exact IH].
  destruct (meets section ev) eqn:M; cbn [andb].
  - cbn [map filter]. rewrite resourceIndex_position.
    destruct (knownResource resources (NormalizedEvent.resourceId ev));
      cbn [andb map]; [| exact IH].
    f_equal. exact IH.
  - rewrite andb_false_r. exact IH.
Qed.

Lemma visible_inv (section : ViewSection.t)
    (resources : list CalendarResource.t) (events : list NormalizedEvent.t)
    (x : Positioned.t) :
  In x (visible section resources events) ->
  In (Positioned.ev x) events
  /\ x = position section resources (Positioned.ev x)
  /\ shown section resources (Positioned.ev x) = true.
Proof.
  unfold visible. intros H.
  apply filter_In in H as [H Hr]. apply in_map_iff in H as (ev & <- & Hev).
  apply filter_In in Hev as [Hin Hf].
  split; [exact Hin | split; [reflexivity |]].
  unfold shown, shownBySpec. cbn [position Positioned.ev].
  rewrite resourceIndex_position in Hr. rewrite visibleFilter_eq in Hf.
  apply andb_prop in Hf as [-> ->]. now rewrite Hr.
Qed.

(** C3 (amended). Projection emits a descriptor exactly for the events
    whose resource id is a non-empty string occurring in the resource list
    and whose span satisfies [end > section.start] and
    [start < section.end], in input order; an event that ends exactly at
    the section start, starts exactly at the section end, has no resource
    id, or has one that matches no resource, yields no descriptor. *)
Theorem visible_exactly_shown (section : ViewSection.t)
    (resources : list CalendarResource.t) (events : list NormalizedEvent.t) :
  map Positioned.ev (visible section resources events)
  = filter (shown section resources) events
  /\ (forall ev : NormalizedEvent.t,
        getTime (NormalizedEvent.end_ ev) = getTime (ViewSection.start section)
        \/ getTime (NormalizedEvent.start ev) = getTime (ViewSection.end_ section)
        \/ NormalizedEvent.resourceId ev = None
        \/ knownResource resources (NormalizedEvent.resourceId ev) = false ->
        shown section resources ev = false).
Proof.
  split; [apply visible_events |].
  intros ev H. unfold shown, shownBySpec, meets.
  destruct H as [H | [H | [H | H]]].
  - rewrite H, Z.ltb_irrefl. cbn [andb]. now rewrite !andb_false_r.
  - rewrite H, Z.ltb_irrefl. now rewrite !andb_false_r.
  - rewrite H. reflexivity.
  - rewrite H. cbn [andb]. apply andb_false_r.
Qed.

Lemma Date_eta (d : Date) : mkDate (getTime d) = d.
Proof. now destruct d. Qed.

Lemma localDay_mono (a b : Date) :
  getTime a <= getTime b -> localDay a <= localDay b.
Proof.
  unfold localDay, localTime, LocalTime, Day, msPerDay. intros H. zdiv.
Qed.

Lemma localDay_before_midnight (a b : Date) :
  atMidnight b -> getTime a < getTime b -> localDay a < localDay b.
Proof.
  unfold atMidnight, localDay, localTime, LocalTime, Day, TimeWithinDay,
    msPerDay. intros M H. zdiv.
Qed.

Lemma clip_start (a b : Date) :
  (if getTime a <? getTime b then b else a) = maxDate a b.
Proof.
  unfold maxDate. destruct (Z.ltb_spec (getTime a) (getTime b)).
  - rewrite Z.max_r by lia. now rewrite Date_eta.
  - rewrite Z.max_l by lia. now rewrite Date_eta.
Qed.

Lemma clip_end (a b : Date) :
  (if getTime b <? getTime a then b else a) = minDate a b.
Proof.
  unfold minDate. destruct (Z.ltb_spec (getTime b) (getTime a)).
  - rewrite Z.min_r by lia. now rewrite Date_eta.
  - rewrite Z.min_l by lia. now rewrite Date_eta.
Qed.

Lemma position_eq (section : ViewSection.t)
    (resources : list CalendarResource.t) (ev : NormalizedEvent.t) :
  let clippedStart :=
    maxDate (NormalizedEvent.start ev) (ViewSection.start section) in
  let clippedEnd :=
    minDate (NormalizedEvent.end_ ev) (ViewSection.end_ section) in
  let startColumn := diffDays clippedStart (ViewSection.start section) in
  Positioned.startIndex (position section resources ev) = startColumn
  /\ Positioned.endIndex (position section resources ev)
     = Z.max (startColumn + 1) (diffDays clippedEnd (ViewSection.start section)).
Proof.
  unfold position. cbn [Positioned.startIndex Positioned.endIndex].
  now rewrite clip_start, clip_end.
Qed.

Lemma shown_meets (section : ViewSection.t)
    (resources : list CalendarResource.t) (ev : NormalizedEvent.t) :
  shown section resources ev = true ->
  getTime (ViewSection.start section) < getTime (NormalizedEvent.end_ ev)
  /\ getTime (NormalizedEvent.start ev) < getTime (ViewSection.end_ section).
Proof.
  unfold shown, shownBySpec, meets. intros H.
  apply andb_prop in H as [_ H]. apply andb_prop in H as [_ H].
  apply andb_prop in H as [H1 H2]. split; now apply Z.ltb_lt.
Qed.

(** Columns of an event that meets a section of [n] days starting at a
    local midnight. *)
Lemma columns_in_section (start end_ evStart evEnd : Date) (n : Z) :
  atMidnight start -> 0 < n -> end_ = addDays start n ->
  getTime start < getTime evEnd -> getTime evStart < getTime end_ ->
  let startColumn := diffDays (maxDate evStart start) start in
  let endColumn :=
    Z.max (startColumn + 1) (diffDays (minDate evEnd end_) start) in
  0 <= startColumn /\ startColumn < endColumn /\ endColumn <= n.
Proof.
  intros M Hn -> H1 H2 startColumn endColumn.
  subst endColumn startColumn. rewrite !diffDays_localDay.
  assert (Me : atMidnight (addDays start n)) by now apply atMidnight_addDays.
  assert (De : localDay (addDays start n) = localDay start + n)
    by apply localDay_addDays.
  assert (Ge : getTime start < getTime (addDays start n))
    by (rewrite getTime_addDays; unfold msPerDay; lia).
  assert (S1 : localDay start <= localDay (maxDate evStart start))
    by (apply localDay_mono; unfold maxDate; cbn [getTime]; lia).
  assert (S2 : localDay (maxDate evStart start) < localDay (addDays start n))
    by (apply localDay_before_midnight; [exact Me |];
        unfold maxDate; cbn [getTime]; lia).
  assert (E2 : localDay (minDate evEnd (addDays start n))
               <= localDay (addDays start n))
    by (apply localDay_mono; unfold minDate; cbn [getTime]; lia).
  lia.
Qed.

(** C4. For every event kept by the projection, the columns are those of
    the clipped span: [startColumn = diffDays(clippedStart, section.start)]
    and [endColumn = max(startColumn + 1, diffDays(clippedEnd,
    section.start))] with [clippedStart = max(event.start, section.start)]
    and [clippedEnd = min(event.end, section.end)], so the width is at
    least one column; against the one-day section of the day view every
    kept event, however long, occupies exactly column 0 with width 1. *)
Theorem positioned_columns (section : ViewSection.t)
    (resources : list CalendarResource.t) (events : list NormalizedEvent.t)
    (x : Positioned.t) :
  In x (visible section resources events) ->
  let clippedStart :=
    maxDate (NormalizedEvent.start (Positioned.ev x)) (ViewSection.start section) in
  let clippedEnd :=
    minDate (NormalizedEvent.end_ (Positioned.ev x)) (ViewSection.end_ section) in
  Positioned.startIndex x = diffDays clippedStart (ViewSection.start section)
  /\ Positioned.endIndex x
     = Z.max (Positioned.startIndex x + 1)
         (diffDays clippedEnd (ViewSection.start section))
  /\ 1 <= Positioned.endIndex x - Positioned.startIndex x
  /\ (forall activeDate : Date,
        getViewModel activeDate vDay = Some (mkViewModel section) ->
        Positioned.startIndex x = 0 /\ Positioned.endIndex x = 1).
Proof.
  intros H clippedStart clippedEnd.
  apply visible_inv in H as (_ & Hx & Hs).
  destruct (position_eq section resources (Positioned.ev x)) as [P1 P2].
  rewrite <- Hx in P1, P2. subst clippedStart clippedEnd.
  split; [exact P1 | split; [now rewrite P1 | split; [lia |]]].
  intros activeDate Hvm. rewrite getViewModel_day in Hvm.
  injection Hvm as Hsec. apply shown_meets in Hs as [M1 M2].
  pose proof (columns_in_section (ViewSection.start section)
                (ViewSection.end_ section)
                (NormalizedEvent.start (Positioned.ev x))
                (NormalizedEvent.end_ (Positioned.ev x)) 1) as C.
  cbv zeta in C. rewrite <- P2 in C. rewrite <- P1 in C.
  rewrite <- Hsec in C. cbn [ViewSection.start ViewSection.end_] in C.
  rewrite <- Hsec in M1, M2. cbn [ViewSection.start ViewSection.end_] in M1, M2.
  specialize (C (atMidnight_startOfDay activeDate) ltac:(lia) eq_refl M1 M2).
  lia.
Qed.




(** ** Navigation *)

Lemma localTime_addMonths (d : Date) (n : Z) :
  localTime (addMonths d n)
  = MakeDate (MakeDay (getFullYear d) (getMonth d + n) (getDate d))
      (TimeWithinDay (localTime d)).
Proof.
  unfold addMonths, setMonth, localTime. cbn [getTime].
  now rewrite LocalTime_UTC.
Qed.

Lemma localTime_inj (a b : Date) : localTime a = localTime b -> a = b.
Proof.
  destruct a as [s], b as [t]. unfold localTime, LocalTime. cbn [getTime].
  intros H. f_equal. lia.
Qed.

Lemma addMonths_0 (d : Date) : addMonths d 0 = d.
Proof.
  apply localTime_inj. rewrite localTime_addMonths, Z.add_0_r.
  unfold getFullYear, getMonth, getDate. fold (localTime d).
  pose proof (MakeDay_of_civil (localTime d) 0) as E.
  rewrite Z.add_0_r in E. rewrite E, Z.add_0_r. apply MakeDate_Day.
Qed.

Lemma civil_local (d : Date) :
  getFullYear d = YearFromTime (localTime d)
  /\ getMonth d = MonthFromTime (localTime d)
  /\ getDate d = DateFromTime (localTime d).
Proof.
  unfold getFullYear, getMonth, getDate, localTime.
  split; [reflexivity | split; reflexivity].
Qed.

(** When the target month has the day, [addMonths] keeps the day of the
    month and the time of day and moves the month index by [n]. *)
Lemma civil_addMonths (d : Date) (n : Z) :
  fits d n = true ->
  getFullYear (addMonths d n) = getFullYear d + (getMonth d + n) / 12
  /\ getMonth (addMonths d n) = (getMonth d + n) mod 12
  /\ getDate (addMonths d n) = getDate d
  /\ TimeWithinDay (localTime (addMonths d n)) = TimeWithinDay (localTime d).
Proof.
  unfold fits. intros F. apply Z.leb_le in F.
  pose proof (TimeWithinDay_range (localTime d)) as R.
  assert (Hm : 0 <= (getMonth d + n) mod 12 <= 11) by zdiv.
  assert (Hd : 1 <= getDate d) by apply DateFromTime_range.
  pose proof (localTime_addMonths d n) as L.
  assert (C : YearFromTime (localTime (addMonths d n))
              = getFullYear d + (getMonth d + n) / 12
              /\ MonthFromTime (localTime (addMonths d n))
                 = (getMonth d + n) mod 12
              /\ DateFromTime (localTime (addMonths d n)) = getDate d).
  { apply MakeDay_first; [exact Hm | lia |].
    rewrite L, Day_MakeDate by exact R. apply MakeDay_carry. }
  destruct C as (C1 & C2 & C3).
  destruct (civil_local (addMonths d n)) as (-> & -> & ->).
  split; [exact C1 | split; [exact C2 | split; [exact C3 |]]].
  rewrite L. now apply TimeWithinDay_MakeDate.
Qed.

Lemma addMonths_addMonths (d : Date) (a b : Z) :
  fits d a = true -> addMonths (addMonths d a) b = addMonths d (a + b).
Proof.
  intros F. apply localTime_inj.
  rewrite (localTime_addMonths (addMonths d a) b).
  rewrite (localTime_addMonths d (a + b)).
  destruct (civil_addMonths d a F) as (Y & M & D & T).
  rewrite Y, M, D, T. f_equal. unfold MakeDay.
  replace (getFullYear d + (getMonth d + a) / 12
           + ((getMonth d + a) mod 12 + b) / 12)
    with (getFullYear d + (getMonth d + (a + b)) / 12) by zdiv.
  replace (((getMonth d + a) mod 12 + b) mod 12)
    with ((getMonth d + (a + b)) mod 12) by zdiv.
  reflexivity.
Qed.

Lemma addYears_addMonths (d : Date) (n : Z) : addYears d n = addMonths d (12 * n).
Proof.
  apply localTime_inj. rewrite localTime_addMonths.
  unfold addYears, setFullYear, localTime. cbn [getTime].
  rewrite LocalTime_UTC. f_equal. unfold getMonth, getDate, getFullYear.
  pose proof (MonthFromTime_range (LocalTime (getTime d))) as R.
  unfold MakeDay.
  replace ((MonthFromTime (LocalTime (getTime d)) + 12 * n) / 12)
    with (MonthFromTime (LocalTime (getTime d)) / 12 + n) by zdiv.
  replace ((MonthFromTime (LocalTime (getTime d)) + 12 * n) mod 12)
    with (MonthFromTime (LocalTime (getTime d)) mod 12) by zdiv.
  replace (MonthFromTime (LocalTime (getTime d)) / 12) with 0 by zdiv.
  now rewrite !Z.add_0_r, Z.add_0_l.
Qed.

Lemma iter_addMonths (d : Date) (u : Z) (k : nat) :
  (forall j : nat, (j <= k)%nat -> fits d (u * Z.of_nat j) = true) ->
  Nat.iter k (fun x => addMonths x u) d = addMonths d (u * Z.of_nat k).
Proof.
  induction k as [| k IH]; intros F.
  - change (d = addMonths d (u * 0)). now rewrite Z.mul_0_r, addMonths_0.
  - rewrite Nat.iter_succ, IH by (intros j Hj; apply F; lia).
    rewrite addMonths_addMonths by (apply F; lia). f_equal. lia.
Qed.

Lemma iter_addMonths_back (d : Date) (u : Z) (k : nat) :
  (forall j : nat, (j <= k)%nat -> fits d (u * Z.of_nat j) = true) ->
  Nat.iter k (fun x => addMonths x (- u)) (addMonths d (u * Z.of_nat k)) = d.
Proof.
  induction k as [| k IH]; intros F.
  - change (addMonths d (u * 0) = d). now rewrite Z.mul_0_r, addMonths_0.
  - rewrite Nat.iter_succ_r.
    rewrite addMonths_addMonths by (apply F; lia).
    replace (u * Z.of_nat (S k) + - u) with (u * Z.of_nat k) by lia.
    apply IH. intros j Hj. apply F. lia.
Qed.

Lemma months_round_trip (d : Date) (u : Z) (k : nat) :
  (forall j : nat, (j <= k)%nat -> fits d (u * Z.of_nat j) = true) ->
  Nat.iter k (fun x => addMonths x (- u)) (Nat.iter k (fun x => addMonths x u) d)
  = d.
Proof.
  intros F. rewrite (iter_addMonths d u k F). now apply iter_addMonths_back.
Qed.

Lemma iter_addDays (d : Date) (c : Z) (k : nat) :
  Nat.iter k (fun x => addDays x c) d = addDays d (c * Z.of_nat k).
Proof.
  induction k as [| k IH].
  - change (d = addDays d (c * 0)). now rewrite Z.mul_0_r, addDays_0.
  - rewrite Nat.iter_succ, IH, addDays_addDays. f_equal. lia.
Qed.

Lemma days_round_trip (d : Date) (c : Z) (k : nat) :
  Nat.iter k (fun x => addDays x (- c)) (Nat.iter k (fun x => addDays x c) d) = d.
Proof.
  rewrite !iter_addDays, addDays_addDays.
  replace (c * Z.of_nat k + - c * Z.of_nat k) with 0 by lia. apply addDays_0.
Qed.

Lemma noOverflow_fits (view : CalendarView) (d : Date) (k : nat) (dir : Z) :
  noOverflow view d k dir = true ->
  forall j : nat, (j <= k)%nat ->
    fits d (dir * unitMonths view * Z.of_nat j) = true.
Proof.
  unfold noOverflow. intros H j Hj. rewrite forallb_forall in H.
  apply H. apply in_seq. lia.
Qed.

Lemma Nat_iter_ext {A : Type} (f g : A -> A) (k : nat) (x : A) :
  (forall y, f y = g y) -> Nat.iter k f x = Nat.iter k g x.
Proof.
  intros E. induction k as [| k IH]; [reflexivity |].
  now rewrite !Nat.iter_succ, IH, E.
Qed.

(** One direction of the round trip, for a step of [dir] view units. *)
Lemma view_round_trip (view : CalendarView) (d : Date) (k : nat) (dir : Z) :
  noOverflow view d k dir = true ->
  Nat.iter k (fun x => addByView x view (- dir))
    (Nat.iter k (fun x => addByView x view dir) d) = d.
Proof.
  intros H. pose proof (noOverflow_fits view d k dir H) as F.
  destruct view; cbn [addByView unitMonths] in *.
  - apply days_round_trip.
  - replace (- dir * 7) with (- (dir * 7)) by lia. apply days_round_trip.
  - apply months_round_trip. intros j Hj. specialize (F j Hj).
    now rewrite Z.mul_1_r in F.
  - rewrite (Nat_iter_ext (fun x => addYears x dir)
               (fun x => addMonths x (dir * 12)))
      by (intros y; rewrite addYears_addMonths; f_equal; lia).
    rewrite (Nat_iter_ext (fun x => addYears x (- dir))
               (fun x => addMonths x (- (dir * 12))))
      by (intros y; rewrite addYears_addMonths; f_equal; lia).
    now apply months_round_trip.
Qed.

Lemma fits_here (d : Date) : fits d 0 = true.
Proof.
  unfold fits. pose proof (MonthFromTime_range (LocalTime (getTime d))) as R.
  pose proof (DateFromTime_range (LocalTime (getTime d))) as D.
  unfold getMonth, getDate, getFullYear. rewrite Z.add_0_r.
  replace (MonthFromTime (LocalTime (getTime d)) / 12) with 0 by zdiv.
  replace (MonthFromTime (LocalTime (getTime d)) mod 12)
    with (MonthFromTime (LocalTime (getTime d))) by zdiv.
  rewrite Z.add_0_r. apply Z.leb_le. lia.
Qed.

Lemma fits_le_28 (d : Date) (n : Z) : getDate d <= 28 -> fits d n = true.
Proof.
  intros H. unfold fits. apply Z.leb_le.
  assert (Hm : 0 <= (getMonth d + n) mod 12 <= 11) by zdiv.
  pose proof (DaysInMonth_range
                (getFullYear d + (getMonth d + n) / 12) _ Hm). lia.
Qed.

Lemma noOverflow_safe (view : CalendarView) (d : Date) (k : nat) (dir : Z) :
  view = vDay \/ view = vWeek \/ getDate d <= 28 ->
  noOverflow view d k dir = true.
Proof.
  intros H. unfold noOverflow. apply forallb_forall. intros j _.
  destruct H as [-> | [-> | H]]; cbn [unitMonths].
  - rewrite Z.mul_0_r, Z.mul_0_l. apply fits_here.
  - rewrite Z.mul_0_r, Z.mul_0_l. apply fits_here.
  - now apply fits_le_28.
Qed.

(** When the target month lacks the day, [addMonths] overflows into the
    first three days of the month after it. *)
Lemma getDate_addMonths_overflow (d : Date) (n : Z) :
  fits d n = false ->
  1 <= getDate (addMonths d n) <= 3 /\ 29 <= getDate d.
Proof.
  unfold fits. intros F. apply Z.leb_gt in F.
  set (y1 := getFullYear d + (getMonth d + n) / 12) in *.
  set (m1 := (getMonth d + n) mod 12) in *.
  assert (Hm1 : 0 <= m1 <= 11) by (subst m1; zdiv).
  pose proof (DaysInMonth_range y1 m1 Hm1) as R1.
  assert (Hd : getDate d <= 31).
  { pose proof (DateFromTime_range (LocalTime (getTime d))) as D.
    pose proof (DaysInMonth_range (YearFromTime (LocalTime (getTime d)))
                  (MonthFromTime (LocalTime (getTime d)))
                  (MonthFromTime_range _)) as D'.
    unfold getDate. lia. }
  set (y2 := y1 + (m1 + 1) / 12).
  set (m2 := (m1 + 1) mod 12).
  assert (Hm2 : 0 <= m2 <= 11) by (subst m2; zdiv).
  pose proof (DaysInMonth_range y2 m2 Hm2) as R2.
  pose proof (TimeWithinDay_range (localTime d)) as T.
  assert (C : DateFromTime (localTime (addMonths d n))
              = getDate d - DaysInMonth y1 m1).
  { apply (MakeDay_first y2 m2); [exact Hm2 | lia |].
    rewrite localTime_addMonths, Day_MakeDate by exact T.
    rewrite MakeDay_carry. fold y1 m1. subst y2 m2.
    rewrite <- MakeDay_carry.
    rewrite (MakeDay_date y1 m1), (MakeDay_date y1 (m1 + 1)).
    rewrite MakeDay_next_month, (MakeDay_date y1 m1 (DaysInMonth y1 m1))
      by exact Hm1.
    lia. }
  destruct (civil_local (addMonths d n)) as (_ & _ & ->).
  rewrite C. lia.
Qed.

Lemma getDate_iter_addMonths (d : Date) (u : Z) (k : nat) :
  getDate d <= 28 ->
  getDate (Nat.iter k (fun x => addMonths x u) d) = getDate d.
Proof.
  intros H. induction k as [| k IH]; [reflexivity |].
  rewrite Nat.iter_succ.
  destruct (civil_addMonths (Nat.iter k (fun x => addMonths x u) d) u)
    as (_ & _ & D & _); [apply fits_le_28; lia |].
  now rewrite D.
Qed.

(** Once a step has overflowed, the walk stays on the first three days of
    the month, away from the day it started on. *)
Lemma overflow_iter_addMonths (d : Date) (u : Z) (k : nat) :
  forallb (fun j => fits d (u * Z.of_nat j)) (seq 0 (S k)) = false ->
  1 <= getDate (Nat.iter k (fun x => addMonths x u) d) <= 3
  /\ 29 <= getDate d.
Proof.
  induction k as [| k IH]; intros H.
  - cbn [seq forallb] in H. change (Z.of_nat 0) with 0 in H.
    rewrite Z.mul_0_r, fits_here in H. discriminate.
  - rewrite seq_S, forallb_app in H. cbn [forallb Nat.add] in H.
    rewrite andb_true_r in H. rewrite Nat.iter_succ.
    destruct (forallb (fun j => fits d (u * Z.of_nat j)) (seq 0 (S k))) eqn:E.
    + cbn [andb] in H.
      assert (F : forall j : nat, (j <= k)%nat -> fits d (u * Z.of_nat j) = true).
      { intros j Hj. rewrite forallb_forall in E. apply E, in_seq. lia. }
      rewrite (iter_addMonths d u k F).
      rewrite addMonths_addMonths by (apply F; lia).
      replace (u * Z.of_nat k + u) with (u * Z.of_nat (S k)) by lia.
      now apply getDate_addMonths_overflow.
    + destruct (IH eq_refl) as [S3 S29].
      destruct (civil_addMonths (Nat.iter k (fun x => addMonths x u) d) u)
        as (_ & _ & D & _); [apply fits_le_28; lia |].
      rewrite D. split; assumption.
Qed.

(** The other direction: after an overflow the round trip ends on another
    day of the month than the one it started on. *)
Lemma view_round_trip_fails (view : CalendarView) (d : Date) (k : nat) (dir : Z) :
  noOverflow view d k dir = false ->
  getDate (Nat.iter k (fun x => addByView x view (- dir))
             (Nat.iter k (fun x => addByView x view dir) d))
  < getDate d.
Proof.
  intros H.
  assert (M : forall u : Z,
            forallb (fun j => fits d (u * Z.of_nat j)) (seq 0 (S k)) = false ->
            getDate (Nat.iter k (fun x => addMonths x (- u))
                       (Nat.iter k (fun x => addMonths x u) d))
            < getDate d).
  { intros u Hu. destruct (overflow_iter_addMonths d u k Hu) as [S3 S29].
    rewrite getDate_iter_addMonths by lia. lia. }
  destruct view.
  - rewrite noOverflow_safe in H by now left. discriminate.
  - rewrite noOverflow_safe in H by (right; now left). discriminate.
  - cbn [addByView]. apply M. unfold noOverflow in H. cbn [unitMonths] in H.
    now rewrite Z.mul_1_r in H.
  - cbn [addByView].
    rewrite (Nat_iter_ext (fun x => addYears x dir)
               (fun x => addMonths x (dir * 12)))
      by (intros y; rewrite addYears_addMonths; f_equal; lia).
    rewrite (Nat_iter_ext (fun x => addYears x (- dir))
               (fun x => addMonths x (- (dir * 12))))
      by (intros y; rewrite addYears_addMonths; f_equal; lia).
    apply M. exact H.
Qed.

Lemma view_round_trip_iff (view : CalendarView) (d : Date) (k : nat) (dir : Z) :
  noOverflow view d k dir = true
  <-> Nat.iter k (fun x => addByView x view (- dir))
        (Nat.iter k (fun x => addByView x view dir) d) = d.
Proof.
  split; [apply view_round_trip |]. intros E.
  destruct (noOverflow view d k dir) eqn:N; [reflexivity |].
  pose proof (view_round_trip_fails view d k dir N) as L.
  rewrite E in L. lia.
Qed.

(** C8. For every view, active date and [k]: [k] steps of [goNext]
    followed by [k] steps of [goPrev], and symmetrically [goPrev] then
    [goNext], give back the active date exactly when no step lands in a
    month that lacks the day of the month of the active date (the month-end
    exception, in which the round trip ends on another day of the month);
    no step does so in the day and week views, nor from a day of the month
    up to the 28th. *)
Theorem navigation_round_trip (view : CalendarView) (activeDate : Date) (k : nat) :
  (noOverflow view activeDate k 1 = true
   <-> Nat.iter k (goPrev view) (Nat.iter k (goNext view) activeDate) = activeDate)
  /\ (noOverflow view activeDate k (-1) = true
      <-> Nat.iter k (goNext view) (Nat.iter k (goPrev view) activeDate)
          = activeDate)
  /\ (view = vDay \/ view = vWeek \/ getDate activeDate <= 28 ->
      noOverflow view activeDate k 1 = true
      /\ noOverflow view activeDate k (-1) = true).
Proof.
  split; [| split].
  - exact (view_round_trip_iff view activeDate k 1).
  - exact (view_round_trip_iff view activeDate k (-1)).
  - intros H. split; now apply noOverflow_safe.
Qed.

(** ** Drag controller *)


(** Whichever target a pointer-move is dispatched at, the slot it leaves is
    the one a single run of the handler leaves: the second updater writes
    the values the first has written. *)
Lemma dispatchPointerMove_handler (resources : list CalendarResource.t)
    (bodyRect : option Q) (cellWidth : Q) (drag : option DragState.t)
    (target : PointerTarget) (e : PointerEvent) :
  dispatchPointerMove resources bodyRect cellWidth drag target e
  = onEventPointerMove resources bodyRect cellWidth drag e.
Proof.
  unfold dispatchPointerMove, moveUpdater, onEventPointerMove.
  destruct drag as [d |]; [| now destruct target].
  destruct (pointerId e =? DragState.pointerId d); cbn [negb];
    [| now destruct target].
  destruct bodyRect as [top |]; now destruct target.
Qed.


(** C6 (amended). While a drag is active, a pointer-down is ignored only
    when it lands on an event without a non-empty id or when the grid body
    is not attached; any other pointer-down replaces the drag state by a
    fresh one for the new pointer: its pointer identity, its event as
    origin snapshot, its coordinates, a zero day delta and the clamped row
    under the pointer.  The slot holds a single drag state, and
    pointer-move and pointer-up events of another pointer identity leave
    it as it is and emit nothing. *)
Theorem pointer_down_replaces_drag
    (resources : list CalendarResource.t) (bodyRect : option Q)
    (d : DragState.t) (e : PointerEvent) (ev : NormalizedEvent.t) :
  let next := onEventPointerDown resources bodyRect (Some d) e ev in
  (truthy (NormalizedEvent.id ev) = false \/ bodyRect = None ->
   next = Some d)
  /\ (forall (id : string) (top : Q),
        NormalizedEvent.id ev = Some id -> (id =? "")%string = false ->
        bodyRect = Some top ->
        next = Some (DragState.mk (pointerId e) id ev (clientX e) (clientY e) 0
                       (clamp (rowUnder top (clientY e)) 0
                          (Z.max 0 (Z.of_nat (List.length resources) - 1)))))
  /\ (forall (cellWidth : Q) (onEventChange : bool) (other : PointerEvent),
        (pointerId other =? DragState.pointerId d) = false ->
        onEventPointerMove resources bodyRect cellWidth (Some d) other = Some d
        /\ onEventPointerUp resources onEventChange (Some d) other
           = (Some d, [])).
Proof.
  intros next. subst next. unfold onEventPointerDown.
  split; [| split].
  - intros [H | H].
    + unfold truthy in H. destruct (NormalizedEvent.id ev) as [id |];
        [| reflexivity].
      apply negb_false_iff in H. now rewrite H.
    + rewrite H. destruct (NormalizedEvent.id ev) as [id |]; [| reflexivity].
      now destruct (id =? "")%string.
  - intros id top Hid Hne Hb. now rewrite Hid, Hne, Hb.
  - intros cellWidth onEventChange other Hp.
    unfold onEventPointerMove, onEventPointerUp. now rewrite Hp.
Qed.


(* ---------------------------------------------------------------- *)
(** ** Further properties: date arithmetic                           *)
(* ---------------------------------------------------------------- *)

Lemma startOfDay_eq (d : Date) :
  startOfDay d = mkDate (UTC (localDay d * msPerDay)).
Proof.
  apply localTime_inj. rewrite localTime_startOfDay.
  unfold localTime at 1. cbn [getTime]. now rewrite LocalTime_UTC.
Qed.


Lemma clock_shift (t n : Z) :
  HourFromTime (t + n * msPerDay) = HourFromTime t
  /\ MinFromTime (t + n * msPerDay) = MinFromTime t
  /\ SecFromTime (t + n * msPerDay) = SecFromTime t
  /\ msFromTime (t + n * msPerDay) = msFromTime t
  /\ WeekDay (t + n * msPerDay) = (WeekDay t + n) mod 7.
Proof.
  unfold HourFromTime, MinFromTime, SecFromTime, msFromTime, WeekDay, Day,
    msPerHour, msPerMinute, msPerSecond, msPerDay.
  split; [zdiv | split; [zdiv | split; [zdiv | split; [zdiv |]]]].
  replace ((t + n * 86400000) / 86400000) with (t / 86400000 + n) by zdiv.
  zdiv.
Qed.

(** X2. [addDays] is an action of the integers on dates: adding 0 days
    changes nothing, adding [a] then [b] days adds [a + b] days, and adding
    [n] days moves the time value by [n] times 86400000 ms, so the time of
    day stays and the weekday moves by [n] modulo 7. *)
Theorem addDays_action (d : Date) (a b : Z) :
  addDays d 0 = d
  /\ addDays (addDays d a) b = addDays d (a + b)
  /\ getTime (addDays d a) = getTime d + a * msPerDay
  /\ getHours (addDays d a) = getHours d
  /\ getMinutes (addDays d a) = getMinutes d
  /\ getSeconds (addDays d a) = getSeconds d
  /\ getMilliseconds (addDays d a) = getMilliseconds d
  /\ getDay (addDays d a) = (getDay d + a) mod 7.
Proof.
  split; [apply addDays_0 | split; [apply addDays_addDays |]].
  split; [apply getTime_addDays |].
  unfold getHours, getMinutes, getSeconds, getMilliseconds, getDay.
  rewrite getTime_addDays.
  replace (LocalTime (getTime d + a * msPerDay))
    with (LocalTime (getTime d) + a * msPerDay) by (unfold LocalTime; lia).
  destruct (clock_shift (LocalTime (getTime d)) a) as (H & M & S & L & W).
  split; [exact H | split; [exact M | split; [exact S | split; [exact L | exact W]]]].
Qed.

(** X3. [diffDays] counts local calendar days: it is zero on a date and
    itself, antisymmetric and additive, [n] between a date and the date [n]
    days later, and zero exactly for two dates of the same local day. *)
Theorem diffDays_counts_days (a b c : Date) (n : Z) :
  diffDays a a = 0
  /\ diffDays a b = - diffDays b a
  /\ diffDays a c = diffDays a b + diffDays b c
  /\ diffDays (addDays a n) a = n
  /\ (diffDays a b = 0 <-> startOfDay a = startOfDay b).
Proof.
  rewrite !diffDays_localDay, localDay_addDays.
  split; [lia | split; [lia | split; [lia | split; [lia |]]]].
  rewrite !startOfDay_eq. split.
  - intros H. replace (localDay a) with (localDay b) by lia. reflexivity.
  - intros H. injection H as H. unfold UTC, msPerDay in H. lia.
Qed.




(* ---------------------------------------------------------------- *)
(** ** Further properties: views and paging                          *)
(* ---------------------------------------------------------------- *)

Lemma MakeFullYear_id (y : Z) : y < 0 \/ 99 < y -> MakeFullYear y = y.
Proof.
  intros H. unfold MakeFullYear.
  destruct (Z.leb_spec 0 y), (Z.leb_spec y 99); cbn [andb]; lia.
Qed.

Lemma localTime_Date_ymd (y m d : Z) :
  localTime (Date_ymd y m d) = MakeDay (MakeFullYear y) m d * msPerDay.
Proof.
  unfold localTime, Date_ymd. cbn [getTime]. rewrite LocalTime_UTC.
  unfold MakeDate, MakeTime. lia.
Qed.

Lemma getTime_local (d : Date) : getTime d = localTime d - LocalTZA.
Proof. unfold localTime, LocalTime. lia. Qed.

(** X5. Outside the two-digit years of the [Date] constructor, the month
    view is the calendar month that contains the active date: its section
    starts on the first of the active date's month, has as many days as that
    month, and the active date lies between its start and its end. *)
Theorem month_view_is_calendar_month (activeDate : Date) :
  getFullYear activeDate < 0 \/ 99 < getFullYear activeDate ->
  exists s : ViewSection.t,
    sections activeDate vMonth = Some [s]
    /\ ViewSection.start s
       = Date_ymd (getFullYear activeDate) (getMonth activeDate) 1
    /\ getFullYear (ViewSection.start s) = getFullYear activeDate
    /\ getMonth (ViewSection.start s) = getMonth activeDate
    /\ getDate (ViewSection.start s) = 1
    /\ Z.of_nat (List.length (ViewSection.days s))
       = DaysInMonth (getFullYear activeDate) (getMonth activeDate)
    /\ getTime (ViewSection.start s) <= getTime activeDate
       < getTime (ViewSection.end_ s).
Proof.
  intros Hy. pose proof (MakeFullYear_id _ Hy) as Y.
  assert (Hm : 0 <= getMonth activeDate <= 11) by apply MonthFromTime_range.
  pose proof (DaysInMonth_range (getFullYear activeDate) _ Hm) as R.
  exists (monthSectionOf (getFullYear activeDate) (getMonth activeDate)).
  split.
  { unfold sections. rewrite getViewModel_month by now left. reflexivity. }
  unfold monthSectionOf.
  cbn [ViewSection.start ViewSection.end_ ViewSection.days].
  rewrite Y, length_dayRun, Z2Nat.id by lia.
  destruct (civil_Date_ymd_first (getFullYear activeDate) _ Hm) as (A & B & C).
  rewrite A, B, C, Y.
  split; [reflexivity | split; [reflexivity | split; [reflexivity |]]].
  split; [reflexivity | split; [reflexivity |]].
  rewrite getTime_addDays, !getTime_local, localTime_Date_ymd, Y.
  rewrite MakeDay_date.
  pose proof (MakeDay_of_civil (localTime activeDate) 0) as E.
  rewrite Z.add_0_r in E.
  destruct (civil_local activeDate) as (Ey & Em & Ed).
  rewrite <- Ey, <- Em, <- Ed, Z.add_0_r in E.
  rewrite (MakeDay_date _ _ (getDate activeDate)) in E.
  pose proof (DateFromTime_range (localTime activeDate)) as D.
  rewrite <- Ey, <- Em, <- Ed in D.
  pose proof (MakeDate_Day (localTime activeDate)) as T.
  pose proof (TimeWithinDay_range (localTime activeDate)) as W.
  unfold MakeDate, msPerDay in *. lia.
Qed.


(** X7. Outside the two-digit years of the [Date] constructor, the year
    view covers the year of the active date and nothing else: the first of
    its twelve sections starts on January 1 of that year, the last one ends
    as many days later as the year has days (365 or 366), and the active
    date lies in between. *)
Theorem year_view_covers_year (activeDate : Date) :
  getFullYear activeDate < 0 \/ 99 < getFullYear activeDate ->
  exists (ss : list ViewSection.t) (first last : ViewSection.t),
    sections activeDate vYear = Some ss
    /\ nth_error ss 0 = Some first
    /\ nth_error ss 11 = Some last
    /\ ViewSection.start first = Date_ymd (getFullYear activeDate) 0 1
    /\ getTime (ViewSection.end_ last)
       = getTime (ViewSection.start first)
         + DaysInYear (getFullYear activeDate) * msPerDay
    /\ getTime (ViewSection.start first) <= getTime activeDate
       < getTime (ViewSection.end_ last).
Proof.
  intros Hy. pose proof (MakeFullYear_id _ Hy) as Y.
  set (y := getFullYear activeDate) in *.
  exists (Array_from 12 (monthSectionOf y)),
    (monthSectionOf y 0), (monthSectionOf y 11).
  split.
  { unfold sections. rewrite getViewModel_month by now right.
    apply getYearSections_eq. }
  split; [now rewrite nth_error_Array_from by lia |].
  split; [now rewrite nth_error_Array_from by lia |].
  split; [reflexivity |].
  unfold monthSectionOf. cbn [ViewSection.start ViewSection.end_].
  rewrite Y.
  pose proof (DaysInMonth_range y 11 ltac:(lia)) as R.
  rewrite getTime_addDays, Z2Nat.id by lia.
  rewrite !getTime_local, !localTime_Date_ymd, Y.
  rewrite !MakeDay_in_range by lia.
  unfold DaysInMonth. table. rewrite DaysInYear_leap.
  pose proof (YearFromDay_spec (Day (localTime activeDate))) as S.
  destruct (civil_local activeDate) as (Ey & _ & _).
  unfold YearFromTime in Ey. fold y in Ey. rewrite <- Ey in S.
  rewrite DayFromYear_succ, DaysInYear_leap in S.
  pose proof (MakeDate_Day (localTime activeDate)) as T.
  pose proof (TimeWithinDay_range (localTime activeDate)) as W.
  unfold MakeDate, msPerDay in *. lia.
Qed.




(* ---------------------------------------------------------------- *)
(** ** Further properties: the drag gesture                          *)
(* ---------------------------------------------------------------- *)




Lemma clamp_range (v lo hi : Z) : lo <= hi -> lo <= clamp v lo hi <= hi.
Proof. unfold clamp. lia. Qed.

Lemma Math_round_Z (n : Z) (x : Q) : (x == inject_Z n)%Q -> Math_round x = n.
Proof.
  intros E. unfold Math_round. rewrite E.
  unfold Qfloor, Qplus, inject_Z. cbn [Qnum Qden].
  change (Z.pos (1 * 2)) with 2. zdiv.
Qed.

(** X10. A pointer-move of the dragging pointer over the attached body
    keeps the pointer, event, origin and start coordinates of the gesture,
    puts the target row between 0 and the last resource row, and sets the
    day delta from the horizontal displacement: a displacement of exactly
    [n] cells of a positive width gives the delta [n], and a cell width that
    is not positive gives the delta 0. *)
Theorem pointer_move_rounds_to_cells (resources : list CalendarResource.t)
    (top cellWidth : Q) (d : DragState.t) (e : PointerEvent) :
  pointerId e = DragState.pointerId d ->
  exists d' : DragState.t,
    onEventPointerMove resources (Some top) cellWidth (Some d) e = Some d'
    /\ (DragState.pointerId d', DragState.eventId d', DragState.origin d',
        DragState.startX d', DragState.startY d')
       = (DragState.pointerId d, DragState.eventId d, DragState.origin d,
          DragState.startX d, DragState.startY d)
    /\ 0 <= DragState.targetResourceIndex d'
       <= Z.max 0 (Z.of_nat (List.length resources) - 1)
    /\ (forall n : Z,
          (0 < cellWidth)%Q ->
          (clientX e - DragState.startX d == inject_Z n * cellWidth)%Q ->
          DragState.deltaDays d' = n)
    /\ ((cellWidth <= 0)%Q -> DragState.deltaDays d' = 0).
Proof.
  intros Hp. unfold onEventPointerMove.
  rewrite Hp, Z.eqb_refl. cbn [negb].
  eexists. split; [reflexivity |].
  cbn [DragState.deltaDays DragState.pointerId DragState.eventId
       DragState.origin DragState.startX DragState.startY
       DragState.targetResourceIndex].
  split; [reflexivity | split; [apply clamp_range; lia | split]].
  - intros n Hc E.
    destruct (Qlt_le_dec 0 cellWidth) as [_ | N];
      [| exfalso; exact (Qlt_not_le _ _ Hc N)].
    apply Math_round_Z. rewrite E.
    apply Qdiv_mult_l. intros Z0. rewrite Z0 in Hc. discriminate.
  - intros Hc.
    destruct (Qlt_le_dec 0 cellWidth) as [P | _]; [| reflexivity].
    exfalso. exact (Qlt_not_le _ _ P Hc).
Qed.

Lemma at_index_in_range {A : Type} (xs : list A) (i : Z) :
  0 <= i < Z.of_nat (List.length xs) ->
  exists x : A, at_index xs i = Some x /\ In x xs.
Proof.
  intros H. unfold at_index. destruct (Z.ltb_spec i 0); [lia |].
  destruct (nth_error xs (Z.to_nat i)) as [x |] eqn:E.
  - exists x. split; [reflexivity |]. eapply nth_error_In. exact E.
  - apply nth_error_None in E. lia.
Qed.

(** The invariant of a gesture in progress. *)
Lemma move_keeps_gesture (resources : list CalendarResource.t)
    (rect : option Q) (cellWidth : Q) (d : DragState.t) (e : PointerEvent) :
  0 <= DragState.targetResourceIndex d
    <= Z.max 0 (Z.of_nat (List.length resources) - 1) ->
  exists d' : DragState.t,
    onEventPointerMove resources rect cellWidth (Some d) e = Some d'
    /\ DragState.pointerId d' = DragState.pointerId d
    /\ DragState.eventId d' = DragState.eventId d
    /\ DragState.origin d' = DragState.origin d
    /\ 0 <= DragState.targetResourceIndex d'
       <= Z.max 0 (Z.of_nat (List.length resources) - 1).
Proof.
  intros H. unfold onEventPointerMove.
  destruct (pointerId e =? DragState.pointerId d); cbn [negb].
  - destruct rect as [top |].
    + eexists. split; [reflexivity |].
      cbn [DragState.pointerId DragState.eventId DragState.origin
           DragState.targetResourceIndex].
      split; [reflexivity | split; [reflexivity | split; [reflexivity |]]].
      apply clamp_range. lia.
    + exists d. now repeat (split; [reflexivity |]).
  - exists d. now repeat (split; [reflexivity |]).
Qed.

(** X11. A gesture that has started is never lost and never discarded for
    a missing row: with at least one resource and no empty resource id, the
    drag state after a pointer-down on an event with a non-empty id and any
    run of pointer-moves (of any pointers, dispatched at any targets, under
    any body rectangles and cell widths) still belongs to the pointer and
    the event of the pointer-down, and its target row is a row of the
    resource list.  The pointer-up of that pointer returns to Idle and
    passes the reschedule intent for the resource of that row to the
    callback once for each handler it runs: once when it is dispatched at
    the body, twice when it is dispatched at an event element. *)
Theorem gesture_commits_on_release (resources : list CalendarResource.t)
    (top : Q) (before : option DragState.t) (down up : PointerEvent)
    (ev : NormalizedEvent.t) (id : string)
    (moves : list (PointerTarget * option Q * Q * PointerEvent))
    (target : PointerTarget) :
  (0 < List.length resources)%nat ->
  Forall (fun r => (CalendarResource.id r =? "")%string = false) resources ->
  NormalizedEvent.id ev = Some id -> (id =? "")%string = false ->
  pointerId up = pointerId down ->
  exists (d : DragState.t) (r : CalendarResource.t),
    afterDispatchedMoves resources
      (onEventPointerDown resources (Some top) before down ev) moves = Some d
    /\ DragState.pointerId d = pointerId down
    /\ DragState.eventId d = id
    /\ DragState.origin d = ev
    /\ at_index resources (DragState.targetResourceIndex d) = Some r
    /\ dispatchPointerUp resources true (Some d) target up
       = (None,
          repeat (updatedEvent d (CalendarResource.id r))
            (handlersReached target)).
Proof.
  intros Hn Hids Hid Hne Hup.
  assert (G : exists d : DragState.t,
            afterDispatchedMoves resources
              (onEventPointerDown resources (Some top) before down ev) moves
            = Some d
            /\ DragState.pointerId d = pointerId down
            /\ DragState.eventId d = id
            /\ DragState.origin d = ev
            /\ 0 <= DragState.targetResourceIndex d
               <= Z.max 0 (Z.of_nat (List.length resources) - 1)).
  { unfold onEventPointerDown. rewrite Hid, Hne.
    set (d0 := DragState.mk (pointerId down) id ev (clientX down) (clientY down) 0
                 (clamp (rowUnder top (clientY down)) 0
                    (Z.max 0 (Z.of_nat (List.length resources) - 1)))).
    assert (I0 : DragState.pointerId d0 = pointerId down
                 /\ DragState.eventId d0 = id
                 /\ DragState.origin d0 = ev
                 /\ 0 <= DragState.targetResourceIndex d0
                    <= Z.max 0 (Z.of_nat (List.length resources) - 1)).
    { subst d0. cbn [DragState.pointerId DragState.eventId DragState.origin
                     DragState.targetResourceIndex].
      split; [reflexivity | split; [reflexivity | split; [reflexivity |]]].
      apply clamp_range. lia. }
    clearbody d0. revert d0 I0. unfold afterDispatchedMoves.
    induction moves as [| m rest IH]; intros d0 I0; cbn [fold_left].
    - exists d0. split; [reflexivity | exact I0].
    - destruct I0 as (A & B & C & D).
      destruct m as [[[tg rect] cw] e].
      rewrite dispatchPointerMove_handler.
      destruct (move_keeps_gesture resources rect cw d0 e D)
        as (d1 & E & A1 & B1 & C1 & D1).
      rewrite E. apply IH.
      split; [congruence | split; [congruence | split; [congruence | exact D1]]]. }
  destruct G as (d & E & A & B & C & D).
  destruct (at_index_in_range resources (DragState.targetResourceIndex d))
    as (r & Hr & Hin); [lia |].
  exists d, r.
  split; [exact E | split; [exact A | split; [exact B | split; [exact C |]]]].
  split; [exact Hr |].
  assert (H : onEventPointerUp resources true (Some d) up
              = (None, [updatedEvent d (CalendarResource.id r)])).
  { unfold onEventPointerUp. rewrite Hup, <- A, Z.eqb_refl. cbn [negb].
    rewrite Hr. cbn [option_map truthy].
    rewrite Forall_forall in Hids. now rewrite (Hids r Hin). }
  unfold dispatchPointerUp. rewrite H. now destruct target.
Qed.

(** X12. The computed cell width is always more than 5 pixels, hence
    positive, so that the day delta of a move is never divided by zero: it
    falls back to 40 pixels when the section has no days and when the body
    is no wider than the resource column. *)
Theorem cell_width_stays_positive (rectWidth : Q) (daysCount : nat) :
  (5 < computeCellWidth rectWidth daysCount)%Q
  /\ (0 < computeCellWidth rectWidth daysCount)%Q
  /\ (daysCount = 0%nat -> computeCellWidth rectWidth daysCount = inject_Z 40)
  /\ ((rectWidth <= 240)%Q ->
      computeCellWidth rectWidth daysCount = inject_Z 40).
Proof.
  assert (P : (5 < computeCellWidth rectWidth daysCount)%Q).
  { unfold computeCellWidth.
    destruct (Qlt_le_dec (inject_Z 5) _) as [L | _]; [exact L | reflexivity]. }
  split; [exact P | split; [| split]].
  - eapply Qlt_trans; [| exact P]. reflexivity.
  - intros ->. reflexivity.
  - intros H. unfold computeCellWidth, Math_max0.
    change (inject_Z resourceColWidth) with (240%Q).
    destruct (Qlt_le_dec 0 (rectWidth - 240)) as [L | _].
    + exfalso. apply (Qlt_not_le _ _ L).
      apply (Qplus_le_l _ _ 240). ring_simplify. exact H.
    + destruct (0 <? Z.of_nat daysCount); [| reflexivity].
      destruct (Qlt_le_dec (inject_Z 5) (0 / inject_Z (Z.of_nat daysCount)))
        as [L | _]; [| reflexivity].
      exfalso. revert L. unfold Qdiv. rewrite Qmult_0_l. discriminate.
Qed.

(* ---------------------------------------------------------------- *)
(** ** Further properties: projection and placement                  *)
(* ---------------------------------------------------------------- *)

Lemma findIndex_first {A : Type} (p : A -> bool) (xs : list A) :
  0 <= findIndex p xs ->
  exists x : A,
    at_index xs (findIndex p xs) = Some x /\ p x = true
    /\ forall (j : Z) (y : A),
         0 <= j < findIndex p xs -> at_index xs j = Some y -> p y = false.
Proof.
  induction xs as [| a rest IH]; cbn [findIndex]; [lia |].
  destruct (p a) eqn:Pa.
  - intros _. exists a. split; [reflexivity | split; [exact Pa |]]. lia.
  - destruct (Z.ltb_spec (findIndex p rest) 0) as [N | N]; [lia |].
    intros _. destruct (IH N) as (x & Hx & Px & Hfirst).
    exists x. split; [| split; [exact Px |]].
    + unfold at_index in *. destruct (Z.ltb_spec (findIndex p rest) 0); [lia |].
      destruct (Z.ltb_spec (findIndex p rest + 1) 0); [lia |].
      replace (Z.to_nat (findIndex p rest + 1))
        with (S (Z.to_nat (findIndex p rest))) by lia.
      exact Hx.
    + intros j y Hj Hy. destruct (Z.eq_dec j 0) as [-> | Nj].
      * unfold at_index in Hy. cbn in Hy. congruence.
      * apply (Hfirst (j - 1)); [lia |]. unfold at_index in *.
        destruct (Z.ltb_spec j 0); [lia |].
        destruct (Z.ltb_spec (j - 1) 0); [lia |].
        replace (Z.to_nat j) with (S (Z.to_nat (j - 1))) in Hy by lia.
        exact Hy.
Qed.

(** X13. The row of a descriptor is the first row of the event's
    resource: the resource at [resourceIndex] has the resource id of the
    event, and no resource above it has; with a repeated resource id the
    event is drawn once, in the first row of that id. *)
Theorem row_is_first_matching_resource (section : ViewSection.t)
    (resources : list CalendarResource.t) (events : list NormalizedEvent.t)
    (x : Positioned.t) :
  In x (visible section resources events) ->
  exists (r : CalendarResource.t) (rid : string),
    NormalizedEvent.resourceId (Positioned.ev x) = Some rid
    /\ at_index resources (Positioned.resourceIndex x) = Some r
    /\ CalendarResource.id r = rid
    /\ forall (j : Z) (other : CalendarResource.t),
         0 <= j < Positioned.resourceIndex x ->
         at_index resources j = Some other ->
         CalendarResource.id other <> rid.
Proof.
  intros H.
  assert (R : 0 <= Positioned.resourceIndex x).
  { unfold visible in H. apply filter_In in H as [_ H]. now apply Z.leb_le. }
  apply visible_inv in H as (_ & Hx & Hs).
  unfold shown in Hs. apply andb_prop in Hs as [T _].
  destruct (NormalizedEvent.resourceId (Positioned.ev x)) as [rid |] eqn:E;
    [| discriminate].
  assert (Hi : Positioned.resourceIndex x
               = findIndex (fun r : CalendarResource.t => sameId r (Some rid))
                   resources).
  { rewrite Hx at 1. unfold position. cbn [Positioned.resourceIndex].
    now rewrite E. }
  rewrite Hi in R. destruct (findIndex_first _ _ R) as (r & Hr & Pr & Hfirst).
  exists r, rid. rewrite Hi.
  split; [reflexivity | split; [exact Hr | split]].
  - cbn [sameId] in Pr. now apply String.eqb_eq.
  - intros j other Hj Ho. specialize (Hfirst j other Hj Ho).
    cbn [sameId] in Hfirst. now apply String.eqb_neq.
Qed.








(* ---------------------------------------------------------------- *)
(** ** Further properties: the host and the narrow-screen variant    *)
(* ---------------------------------------------------------------- *)

(** X17. The host's [onEventChange] handler touches only the events of
    the intent's id: the list keeps its length and order, an intent without
    a non-empty id changes nothing, every event of another id stays as it
    is, and every event of the intent's id takes the intent's id, title and
    start, and its end, resource and colour where the intent has them; where
    the intent reads [undefined] the event keeps its own end, resource or
    colour if the intent lacks the key, and loses it if the intent holds the
    key with the value [undefined]. *)
Theorem host_updates_only_the_event (events : list CalendarEvent.t)
    (updated : CalendarEvent.t) (held : UndefinedKeys) :
  List.length (App_onEventChange events updated held) = List.length events
  /\ (truthy (CalendarEvent.id updated) = false ->
      App_onEventChange events updated held = events)
  /\ (forall (i : nat) (e : CalendarEvent.t),
        nth_error events i = Some e ->
        hasId e (CalendarEvent.id updated) = false ->
        nth_error (App_onEventChange events updated held) i = Some e)
  /\ (forall (i : nat) (e : CalendarEvent.t),
        truthy (CalendarEvent.id updated) = true ->
        nth_error events i = Some e ->
        hasId e (CalendarEvent.id updated) = true ->
        exists e' : CalendarEvent.t,
          nth_error (App_onEventChange events updated held) i = Some e'
          /\ CalendarEvent.id e' = CalendarEvent.id updated
          /\ CalendarEvent.title e' = CalendarEvent.title updated
          /\ CalendarEvent.start e' = CalendarEvent.start updated
          /\ (forall v, CalendarEvent.end_ updated = Some v ->
                        CalendarEvent.end_ e' = Some v)
          /\ (forall v, CalendarEvent.resourceId updated = Some v ->
                        CalendarEvent.resourceId e' = Some v)
          /\ (forall v, CalendarEvent.color updated = Some v ->
                        CalendarEvent.color e' = Some v)
          /\ (CalendarEvent.end_ updated = None ->
              CalendarEvent.end_ e'
              = if end_undefined held then None else CalendarEvent.end_ e)
          /\ (CalendarEvent.resourceId updated = None ->
              CalendarEvent.resourceId e'
              = if resourceId_undefined held then None
                else CalendarEvent.resourceId e)
          /\ (CalendarEvent.color updated = None ->
              CalendarEvent.color e'
              = if color_undefined held then None else CalendarEvent.color e)).
Proof.
  unfold App_onEventChange.
  destruct (truthy (CalendarEvent.id updated)) eqn:T; cbn [negb].
  - split; [apply length_map | split; [discriminate | split]].
    + intros i e Hi Hid. rewrite nth_error_map, Hi. cbn [option_map].
      now rewrite Hid.
    + intros i e _ Hi Hid. eexists. split.
      * rewrite nth_error_map, Hi. cbn [option_map]. rewrite Hid. reflexivity.
      * unfold spread.
        cbn [CalendarEvent.id CalendarEvent.title CalendarEvent.start
             CalendarEvent.end_ CalendarEvent.resourceId CalendarEvent.color].
        unfold truthy in T.
        destruct (CalendarEvent.id updated) as [u |]; [| discriminate].
        split; [reflexivity | split; [reflexivity | split; [reflexivity |]]].
        split; [| split; [| split; [| split; [| split]]]];
          intros; match goal with H : _ = _ |- _ => rewrite H end;
          reflexivity.
  - split; [reflexivity | split; [reflexivity | split]].
    + intros i e Hi _. exact Hi.
    + discriminate.
Qed.


Lemma firstn_1_length {A : Type} (xs : list A) :
  (List.length (firstn 1 xs) <= 1)%nat
  /\ (forall x, In x (firstn 1 xs) -> In x xs)
  /\ (firstn 1 xs = [] <-> xs = []).
Proof.
  destruct xs as [| x rest]; cbn [firstn List.length In].
  - split; [lia | split; [tauto | tauto]].
  - split; [lia | split; [intros y [-> | []]; now left |]].
    split; discriminate.
Qed.

Lemma narrow_screen_length (resources : list CalendarResource.t)
    (selectedResourceId : string) :
  (List.length (displayResources true resources selectedResourceId) <= 1)%nat.
Proof.
  destruct (firstn_1_length resources) as (L & _ & _).
  unfold displayResources. cbn [negb].
  destruct (selectedResourceId =? "")%string; [exact L |].
  destruct (find _ resources); [cbn; lia | exact L].
Qed.

(** X19. On a narrow screen at most one resource is displayed, it is one
    of the resources, and none is displayed only when there is none at all:
    the first resource with the selected id, or the first resource when
    nothing is selected or the selection matches no resource.  On a wide
    screen all resources are displayed. *)
Theorem narrow_screen_shows_one_resource (resources : list CalendarResource.t)
    (selectedResourceId : string) :
  displayResources false resources selectedResourceId = resources
  /\ (List.length (displayResources true resources selectedResourceId) <= 1)%nat
  /\ (forall r : CalendarResource.t,
        In r (displayResources true resources selectedResourceId) ->
        In r resources)
  /\ (displayResources true resources selectedResourceId = []
      <-> resources = [])
  /\ (forall r : CalendarResource.t,
        (selectedResourceId =? "")%string = false ->
        find (fun x => (CalendarResource.id x =? selectedResourceId)%string)
          resources = Some r ->
        displayResources true resources selectedResourceId = [r]
        /\ CalendarResource.id r = selectedResourceId).
Proof.
  destruct (firstn_1_length resources) as (L & I & E).
  split; [reflexivity |]. unfold displayResources. cbn [negb].
  destruct (selectedResourceId =? "")%string eqn:S.
  - split; [exact L | split; [exact I | split; [exact E | discriminate]]].
  - destruct (find _ resources) as [r |] eqn:F.
    + apply find_some in F as [Fin Fid].
      split; [cbn; lia | split; [| split]].
      * intros x [<- | []]. exact Fin.
      * split; [discriminate | intros ->; destruct Fin].
      * intros r' _ Hr. injection Hr as <-.
        split; [reflexivity | now apply String.eqb_eq].
    + split; [exact L | split; [exact I | split; [exact E | discriminate]]].
Qed.

Lemma visible_cons (section : ViewSection.t)
    (resources : list CalendarResource.t) (n : NormalizedEvent.t)
    (rest : list NormalizedEvent.t) :
  visible section resources (n :: rest)
  = (if shown section resources n then [position section resources n] else [])
    ++ visible section resources rest.
Proof.
  unfold visible. cbn [filter]. unfold shown, shownBySpec.
  rewrite visibleFilter_eq.
  destruct (truthy (NormalizedEvent.resourceId n)); cbn [andb]; [| reflexivity].
  destruct (meets section n); cbn [andb map filter].
  - rewrite resourceIndex_position.
    now destruct (knownResource resources (NormalizedEvent.resourceId n)).
  - now rewrite andb_false_r.
Qed.

(** X20. On a narrow screen the pre-selection of the events does not
    change what is drawn: projecting the display events onto the displayed
    resource gives the same descriptors as projecting all normalized events
    onto it, and every descriptor is in row 0. *)
Theorem narrow_screen_projection (section : ViewSection.t)
    (resources : list CalendarResource.t) (selectedResourceId : string)
    (normalizedEvents : list NormalizedEvent.t) :
  let shownResources := displayResources true resources selectedResourceId in
  visible section shownResources
    (displayEvents true shownResources normalizedEvents)
  = visible section shownResources normalizedEvents
  /\ (forall x : Positioned.t,
        In x (visible section shownResources normalizedEvents) ->
        Positioned.resourceIndex x = 0).
Proof.
  intros shownResources.
  assert (L : (List.length shownResources <= 1)%nat)
    by apply narrow_screen_length.
  clearbody shownResources. split.
  - unfold displayEvents. cbn [negb].
    destruct shownResources as [| r [| r2 rest]]; cbn [List.length] in L;
      [| | lia].
    + cbn [at_index Z.ltb Z.compare Z.to_nat nth_error option_map truthy negb].
      induction normalizedEvents as [| n rest IH]; [reflexivity |].
      rewrite visible_cons, <- IH. unfold shown, shownBySpec, knownResource.
      destruct (NormalizedEvent.resourceId n); cbn [existsb andb];
        now rewrite ?andb_false_r.
    + cbn [at_index Z.ltb Z.compare Z.to_nat nth_error option_map truthy].
      destruct (CalendarResource.id r =? "")%string eqn:Er; cbn [negb].
      * apply String.eqb_eq in Er.
        induction normalizedEvents as [| n rest IH]; [reflexivity |].
        rewrite visible_cons, <- IH. unfold shown, shownBySpec, knownResource.
        destruct (NormalizedEvent.resourceId n) as [s |] eqn:En;
          cbn [truthy existsb andb orb]; [| reflexivity].
        rewrite Er. destruct (String.eqb_spec "" s) as [<- | Ns];
          cbn [negb orb andb]; [reflexivity |].
        now rewrite andb_false_r.
      * induction normalizedEvents as [| n rest IH]; [reflexivity |].
        cbn [filter]. rewrite visible_cons.
        destruct (NormalizedEvent.resourceId n) as [s |] eqn:En.
        -- destruct (s =? CalendarResource.id r)%string eqn:Es.
           ++ rewrite visible_cons, IH. reflexivity.
           ++ rewrite IH. unfold shown, shownBySpec, knownResource.
              rewrite En. cbn [existsb orb]. rewrite String.eqb_sym, Es.
              cbn [andb]. now rewrite andb_false_r.
        -- rewrite IH. unfold shown. rewrite En. reflexivity.
  - intros x Hx.
    assert (R : 0 <= Positioned.resourceIndex x).
    { unfold visible in Hx. apply filter_In in Hx as [_ H]. now apply Z.leb_le. }
    apply visible_inv in Hx as (_ & Hp & _).
    rewrite Hp in *. unfold position in *. cbn [Positioned.resourceIndex] in *.
    pose proof (findIndex_range
                  (fun r => sameId r (NormalizedEvent.resourceId (Positioned.ev x)))
                  shownResources). lia.
Qed.

(** X21. The selection effect keeps the selected resource id valid: with
    no resources the selection is the empty string; otherwise it is the id
    of one of the resources, the previous selection when that is one, the
    first resource's id when it is not; and running the effect again changes
    nothing. *)
Theorem selection_stays_valid (resources : list CalendarResource.t)
    (prev : string) :
  let next := syncSelectedResource resources prev in
  (resources = [] -> next = ""%string)
  /\ (resources <> [] -> In next (map CalendarResource.id resources))
  /\ (In prev (map CalendarResource.id resources) -> next = prev)
  /\ syncSelectedResource resources next = next.
Proof.
  intros next. subst next.
  assert (Ex : forall s : string,
            existsb (fun r => (CalendarResource.id r =? s)%string) resources = true
            <-> In s (map CalendarResource.id resources)).
  { intros s. rewrite existsb_exists, in_map_iff. split.
    - intros (r & Hin & E). exists r. apply String.eqb_eq in E. tauto.
    - intros (r & E & Hin). exists r. split; [exact Hin |].
      now apply String.eqb_eq. }
  destruct resources as [| r0 rest].
  - split; [reflexivity | split; [congruence | split; [intros [] | reflexivity]]].
  - assert (Hl : (Z.of_nat (List.length (r0 :: rest)) =? 0) = false)
      by (apply Z.eqb_neq; cbn [List.length]; lia).
    unfold syncSelectedResource. rewrite !Hl.
    destruct (existsb (fun r => (CalendarResource.id r =? prev)%string)
                (r0 :: rest)) eqn:E.
    + split; [discriminate | split; [| split; [reflexivity | now rewrite E]]].
      intros _. now apply Ex.
    + assert (In0 : In (CalendarResource.id r0)
                      (map CalendarResource.id (r0 :: rest))) by now left.
      cbn [at_index Z.ltb Z.compare Z.to_nat nth_error].
      split; [discriminate | split; [intros _; exact In0 | split]].
      * intros Hin. apply Ex in Hin. congruence.
      * apply Ex in In0. now rewrite In0.
Qed.

(* ---------------------------------------------------------------- *)
(** ** Further properties: events with an Invalid date               *)
(* ---------------------------------------------------------------- *)

(** X22. An event with an Invalid start or an Invalid end passes the
    filter of no section, whatever its resource: a comparison with [NaN] is
    false.  The events that pass the filter are events with valid dates,
    and on those the filter is [visibleFilter]; every descriptor and every
    drag therefore belongs to an event whose start and end are valid. *)
Theorem invalid_dates_are_never_drawn (section : ViewSection.t)
    (a : NormalizedAny.t) :
  (NormalizedAny.start a = None \/ NormalizedAny.end_ a = None ->
   visibleFilter_any section a = false)
  /\ (visibleFilter_any section a = true <->
      exists n : NormalizedEvent.t,
        a = withValidDates n /\ visibleFilter section n = true).
Proof.
  split; [apply never_drawn |]. split.
  - intros F. destruct (visibleFilter_any_inv section a F) as (s & e & Hs & He).
    exists (NormalizedEvent.mk (NormalizedAny.id a) (NormalizedAny.title a) s e
              (NormalizedAny.resourceId a) (NormalizedAny.color a)
              (NormalizedAny.raw a)).
    assert (E : a = withValidDates
                      (NormalizedEvent.mk (NormalizedAny.id a)
                         (NormalizedAny.title a) s e
                         (NormalizedAny.resourceId a) (NormalizedAny.color a)
                         (NormalizedAny.raw a))).
    { destruct a as [i t st en r c w]. cbn in Hs, He. subst st en.
      reflexivity. }
    split; [exact E |]. rewrite <- visibleFilter_any_valid, <- E. exact F.
  - intros (n & -> & F). now rewrite visibleFilter_any_valid.
Qed.

(* ---------------------------------------------------------------- *)
(** ** Further properties: the host and the repeated intent          *)
(* ---------------------------------------------------------------- *)

Lemma spread_spread (e updated : CalendarEvent.t) (held : UndefinedKeys) :
  spread (spread e updated held) updated held = spread e updated held.
Proof.
  unfold spread.
  cbn [CalendarEvent.id CalendarEvent.title CalendarEvent.start
       CalendarEvent.end_ CalendarEvent.resourceId CalendarEvent.color].
  f_equal.
  - now destruct (CalendarEvent.id updated), (id_undefined held).
  - now destruct (CalendarEvent.end_ updated), (end_undefined held).
  - now destruct (CalendarEvent.resourceId updated), (resourceId_undefined held).
  - now destruct (CalendarEvent.color updated), (color_undefined held).
Qed.

Lemma App_onEventChange_twice (events : list CalendarEvent.t)
    (updated : CalendarEvent.t) (held : UndefinedKeys) :
  App_onEventChange (App_onEventChange events updated held) updated held
  = App_onEventChange events updated held.
Proof.
  unfold App_onEventChange.
  destruct (truthy (CalendarEvent.id updated)) eqn:T; cbn [negb];
    [| reflexivity].
  rewrite map_map. apply map_ext. intros e.
  destruct (hasId e (CalendarEvent.id updated)) eqn:H; [| now rewrite H].
  assert (H' : hasId (spread e updated held) (CalendarEvent.id updated) = true).
  { unfold hasId, spread. cbn [CalendarEvent.id]. unfold truthy in T.
    destruct (CalendarEvent.id updated) as [u |]; [| discriminate].
    apply String.eqb_refl. }
  rewrite H'. apply spread_spread.
Qed.

(** X23. The host's handler absorbs a repeated intent: the events after
    the same intent has been received any number of times, at least once,
    are the events after it has been received once.  The two calls a
    pointer-up over an event element makes therefore leave the host where
    one call would. *)
Theorem host_absorbs_repeated_intent (events : list CalendarEvent.t)
    (updated : CalendarEvent.t) (held : UndefinedKeys) (n : nat) :
  fold_left (fun evs u => App_onEventChange evs u held)
    (repeat updated (S n)) events
  = App_onEventChange events updated held.
Proof.
  cbn [repeat fold_left].
  induction n as [| n IH]; [reflexivity |].
  cbn [repeat fold_left]. now rewrite App_onEventChange_twice.
Qed.

End Calendar.

(* ================================================================== *)
(** * Part III: instances in the zone UTC+8                            *)
(* ================================================================== *)

(** ** The sample dates are the ones their names say *)

Example sample_dates :
  Date_ymd zoneOffset 2023 11 31 = dec_31
  /\ Date_ymd zoneOffset 2024 0 8 = jan_08
  /\ Date_ymd zoneOffset 2024 0 10 = jan_10
  /\ Date_ymd zoneOffset 2024 0 11 = jan_11
  /\ Date_ymd zoneOffset 2024 0 12 = jan_12
  /\ Date_ymd zoneOffset 2024 0 13 = jan_13
  /\ Date_ymd zoneOffset 2024 0 14 = jan_14
  /\ Date_ymd zoneOffset 2024 1 14 = feb_14
  /\ Date_ymd zoneOffset 2023 0 31 = jan_31_2023
  /\ Date_ymd zoneOffset 2023 1 3 = feb_03_2023
  /\ (getHours zoneOffset jan_10_0930, getMinutes zoneOffset jan_10_0930)
     = (9, 30)
  /\ (getHours zoneOffset jan_10_1400, getMinutes zoneOffset jan_10_1400)
     = (14, 0)
  /\ startOfDay zoneOffset jan_10_0930 = jan_10.
Proof. vm_compute. repeat split. Qed.

(** ** The examples of the specification *)

(** No end: the canonical event is the single day of its start. *)
Example normalize_without_end :
  let n := normalizeEvent zoneOffset unparsed task1 in
  NormalizedEvent.start n = jan_10 /\ NormalizedEvent.end_ n = jan_11.
Proof. vm_compute. split; reflexivity. Qed.

(** An end at 14:00 is rounded up to the next midnight. *)
Example normalize_timed_end :
  let n := normalizeEvent zoneOffset unparsed task2 in
  NormalizedEvent.start n = jan_10 /\ NormalizedEvent.end_ n = jan_11.
Proof. vm_compute. split; reflexivity. Qed.

(** An end before the start gives a one-day span from the start. *)
Example normalize_degenerate :
  let n := normalizeEvent zoneOffset unparsed task3 in
  NormalizedEvent.start n = jan_10 /\ NormalizedEvent.end_ n = jan_11.
Proof. vm_compute. split; reflexivity. Qed.

(** Three columns to the right, released over row 2 of three resources:
    the event moves to [2024-01-13, 2024-01-14) on the third resource. *)
Example drag_three_days_to_row_two :
  let origin := normalizeEvent zoneOffset unparsed task1 in
  let drag := DragState.mk 1 "e1" origin (100 # 1) (20 # 1) 3 2 in
  onEventPointerUp zoneOffset threeResources true (Some drag) pointerOne
  = (None,
     [CalendarEvent.mk (Some "e1"%string) "Task 1" (OfDate jan_13)
        (Some (OfDate jan_14)) (Some "r3"%string) (Some "#1677ff"%string)]).
Proof. vm_compute. reflexivity. Qed.

(** Released beyond the known resources: no callback, back to Idle. *)
Example drag_released_off_grid :
  let origin := normalizeEvent zoneOffset unparsed task1 in
  let drag := DragState.mk 1 "e1" origin (100 # 1) (20 # 1) 3 3 in
  onEventPointerUp zoneOffset threeResources true (Some drag) pointerOne
  = (None, []).
Proof. vm_compute. reflexivity. Qed.

(** The month-end exception of navigation: from 2023-01-31 one month
    forward overflows February into March, and one month back lands on
    2023-02-03. *)
Example month_end_exception :
  goPrev zoneOffset vMonth (goNext zoneOffset vMonth jan_31_2023) = feb_03_2023
  /\ noOverflow zoneOffset vMonth jan_31_2023 1 1 = false.
Proof. vm_compute. split; reflexivity. Qed.

(** The component constructor of [Date] reads the years 0 to 99 as 1900 to
    1999: for an active date in the year 50 both the month view and the year
    view show the months of 1950. *)
Example two_digit_year :
  let jan_1_0050 := mkDate (-60589324800000) in
  getFullYear zoneOffset jan_1_0050 = 50
  /\ option_map (fun vm => ViewSection.start (section vm))
       (getViewModel zoneOffset jan_1_0050 vMonth)
     = Some (Date_ymd zoneOffset 1950 0 1)
  /\ option_map (fun ss => option_map ViewSection.start (nth_error ss 0))
       (sections zoneOffset jan_1_0050 vYear)
     = Some (Some (Date_ymd zoneOffset 1950 0 1)).
Proof. vm_compute. repeat split. Qed.

(** ** Instances of the properties *)

(** C1 at the failing input.  The end of [endsSoon] is the string "soon",
    which is no date: the canonical start is 2024-01-10 and the canonical
    end is the Invalid Date, where the claim asks for 2024-01-11; the event
    is drawn in no section. *)
Lemma normalize_unparseable_end :
  givenEnd endsSoon = Some (OfString "soon")
  /\ isValid unparsed unrecognised (OfString "soon") = false
  /\ normalizeEvents_any zoneOffset unparsed unrecognised [endsSoon]
     = [NormalizedAny.mk (Some "e7"%string) "Ends soon" (Some jan_10) None
          (Some "r1"%string) None endsSoon]
  /\ forall section : ViewSection.t,
       visibleFilter_any section
         (normalizeEvent_any zoneOffset unparsed unrecognised endsSoon)
       = false.
Proof.
  assert (G : givenEnd endsSoon = Some (OfString "soon")) by reflexivity.
  assert (I : isValid unparsed unrecognised (OfString "soon") = false)
    by reflexivity.
  split; [exact G | split; [exact I | split; [vm_compute; reflexivity |]]].
  pose proof (normalizeEvents_canonical_unless_invalid zoneOffset unparsed
                unrecognised [endsSoon]) as H.
  apply Forall2_cons_iff in H as [(_ & B & _) _].
  exact (proj2 (proj2 (proj2 (B (OfString "soon") G I)))).
Defined.

(** Next to it, an end that is the empty string is falsy, counts as no end
    and gets the one-day default. *)
Example normalize_empty_end :
  let endsEmpty :=
    CalendarEvent.mk (Some "e8"%string) "Ends nowhere" (OfDate jan_10)
      (Some (OfString "")) (Some "r1"%string) None in
  normalizeEvents_any zoneOffset unparsed unrecognised [endsEmpty]
  = [NormalizedAny.mk (Some "e8"%string) "Ends nowhere" (Some jan_10)
       (Some jan_11) (Some "r1"%string) None endsEmpty].
Proof. vm_compute. reflexivity. Qed.


(** The five-day event against the one-day section of 2024-01-10: one
    descriptor, column 0, width 1. *)
Lemma positioned_columns_witness :
  let ev := normalizeEvent zoneOffset unparsed fiveDays in
  let x := Positioned.mk ev 0 1 0 in
  In x (visible zoneOffset daySection threeResources [ev])
  /\ (NormalizedEvent.start ev, NormalizedEvent.end_ ev) = (jan_08, jan_13)
  /\ Positioned.startIndex x = 0
  /\ Positioned.endIndex x = 1.
Proof.
  intros ev x.
  assert (H : In x (visible zoneOffset daySection threeResources [ev]))
    by (vm_compute; left; reflexivity).
  split; [exact H | split; [vm_compute; reflexivity |]].
  exact (proj2 (proj2 (proj2
           (positioned_columns zoneOffset daySection threeResources [ev] x H)))
           jan_10_0930 eq_refl).
Defined.




(** C3, as stated, fails: the event has a resource id, the empty string,
    which occurs in the resource list, and its span meets the section, yet
    no descriptor is emitted. *)
Lemma projection_drops_empty_resource_id :
  let ev := normalizeEvent zoneOffset unparsed onUnnamed in
  NormalizedEvent.resourceId ev = Some ""%string
  /\ shownBySpec daySection unnamedResources ev = true
  /\ visible zoneOffset daySection unnamedResources [ev] = [].
Proof. vm_compute. repeat split. Qed.

(** An event that ends exactly where the section starts is not shown. *)
Lemma visible_exactly_shown_witness :
  let ev :=
    NormalizedEvent.mk (Some "e0"%string) "Eve" jan_08 jan_10 (Some "r1"%string)
      None task1 in
  getTime (NormalizedEvent.end_ ev) = getTime (ViewSection.start daySection)
  /\ shown daySection threeResources ev = false
  /\ map Positioned.ev (visible zoneOffset daySection threeResources [ev])
     = filter (shown daySection threeResources) [ev].
Proof.
  intros ev.
  pose proof (visible_exactly_shown zoneOffset daySection threeResources [ev])
    as [E X].
  split; [reflexivity | split; [| exact E]].
  apply X. left. reflexivity.
Defined.

(** C6, as stated, fails: while pointer 1 drags [task1], a pointer-down of
    pointer 2 on [task2] replaces the drag state. *)
Lemma second_pointer_down_replaces_drag :
  let first := normalizeEvent zoneOffset unparsed task1 in
  let second := normalizeEvent zoneOffset unparsed task2 in
  let drag := DragState.mk 1 "e1" first (100 # 1) (20 # 1) 3 2 in
  onEventPointerDown threeResources (Some (0 # 1)) (Some drag) pointerTwo second
  = Some (DragState.mk 2 "e2" second (400 # 1) (50 # 1) 0 1).
Proof. vm_compute. reflexivity. Qed.

(** The replacement, and a move of another pointer that changes nothing. *)
Lemma pointer_down_replaces_drag_witness :
  let first := normalizeEvent zoneOffset unparsed task1 in
  let second := normalizeEvent zoneOffset unparsed task2 in
  let drag := DragState.mk 1 "e1" first (100 # 1) (20 # 1) 3 2 in
  onEventPointerDown threeResources (Some (0 # 1)) (Some drag) pointerTwo second
  = Some (DragState.mk 2 "e2" second (400 # 1) (50 # 1) 0
            (clamp (rowUnder (0 # 1) (50 # 1)) 0
               (Z.max 0 (Z.of_nat (List.length threeResources) - 1))))
  /\ onEventPointerMove threeResources (Some (0 # 1)) (40 # 1) (Some drag)
       pointerTwo
     = Some drag.
Proof.
  intros first second drag.
  pose proof (pointer_down_replaces_drag zoneOffset threeResources
                (Some (0 # 1)) drag pointerTwo second) as (_ & R & O).
  split.
  - exact (R "e2"%string (0 # 1) eq_refl eq_refl eq_refl).
  - exact (proj1 (O (40 # 1) true pointerTwo eq_refl)).
Defined.

(** Three months forward and back from 2024-01-10 09:30; one month forward
    and back from 2023-12-31, since January has a 31st. *)
Lemma navigation_round_trip_witness :
  noOverflow zoneOffset vMonth jan_10_0930 3 1 = true
  /\ Nat.iter 3 (goPrev zoneOffset vMonth)
       (Nat.iter 3 (goNext zoneOffset vMonth) jan_10_0930) = jan_10_0930
  /\ noOverflow zoneOffset vMonth dec_31 1 1 = true
  /\ Nat.iter 1 (goPrev zoneOffset vMonth)
       (Nat.iter 1 (goNext zoneOffset vMonth) dec_31) = dec_31.
Proof.
  assert (A : noOverflow zoneOffset vMonth jan_10_0930 3 1 = true)
    by (vm_compute; reflexivity).
  assert (B : noOverflow zoneOffset vMonth dec_31 1 1 = true)
    by (vm_compute; reflexivity).
  split; [exact A | split; [| split; [exact B |]]].
  - exact (proj1 (proj1 (navigation_round_trip zoneOffset vMonth jan_10_0930 3)) A).
  - exact (proj1 (proj1 (navigation_round_trip zoneOffset vMonth dec_31 1)) B).
Defined.


(** ** Instances of the further properties *)

(** January 2024, the month of 2024-01-10: 31 days from January 1. *)
Lemma month_view_is_calendar_month_witness :
  (getFullYear zoneOffset jan_10_0930 < 0 \/ 99 < getFullYear zoneOffset jan_10_0930)
  /\ exists s : ViewSection.t,
       sections zoneOffset jan_10_0930 vMonth = Some [s]
       /\ ViewSection.start s = Date_ymd zoneOffset 2024 0 1
       /\ Z.of_nat (List.length (ViewSection.days s)) = 31
       /\ getTime (ViewSection.start s) <= getTime jan_10_0930
          < getTime (ViewSection.end_ s).
Proof.
  assert (H : getFullYear zoneOffset jan_10_0930 < 0
              \/ 99 < getFullYear zoneOffset jan_10_0930)
    by (right; vm_compute; reflexivity).
  split; [exact H |].
  destruct (month_view_is_calendar_month zoneOffset jan_10_0930 H)
    as (s & S & St & _ & _ & _ & Len & In).
  exists s. split; [exact S | split; [| split; [| exact In]]].
  - rewrite St. vm_compute. reflexivity.
  - rewrite Len. vm_compute. reflexivity.
Defined.

(** The leap year 2024: 366 days from January 1. *)
Lemma year_view_covers_year_witness :
  (getFullYear zoneOffset jan_10_0930 < 0 \/ 99 < getFullYear zoneOffset jan_10_0930)
  /\ exists (ss : list ViewSection.t) (first last : ViewSection.t),
       sections zoneOffset jan_10_0930 vYear = Some ss
       /\ nth_error ss 0 = Some first
       /\ nth_error ss 11 = Some last
       /\ ViewSection.start first = Date_ymd zoneOffset 2024 0 1
       /\ getTime (ViewSection.end_ last)
          = getTime (ViewSection.start first) + 366 * msPerDay.
Proof.
  assert (H : getFullYear zoneOffset jan_10_0930 < 0
              \/ 99 < getFullYear zoneOffset jan_10_0930)
    by (right; vm_compute; reflexivity).
  split; [exact H |].
  destruct (year_view_covers_year zoneOffset jan_10_0930 H)
    as (ss & first & last & S & F & L & St & Len & _).
  exists ss, first, last.
  split; [exact S | split; [exact F | split; [exact L | split]]].
  - rewrite St. vm_compute. reflexivity.
  - rewrite Len. vm_compute. reflexivity.
Defined.



(** A move of 120 pixels with cells of 40 pixels: three days. *)
Lemma pointer_move_rounds_to_cells_witness :
  let origin := normalizeEvent zoneOffset unparsed task1 in
  let drag := DragState.mk 1 "e1" origin (100 # 1) (20 # 1) 0 0 in
  pointerId pointerOne = DragState.pointerId drag
  /\ exists d' : DragState.t,
       onEventPointerMove threeResources (Some (0 # 1)) (40 # 1) (Some drag)
         pointerOne = Some d'
       /\ DragState.deltaDays d' = 3.
Proof.
  intros origin drag.
  assert (Hp : pointerId pointerOne = DragState.pointerId drag) by reflexivity.
  split; [exact Hp |].
  destruct (pointer_move_rounds_to_cells threeResources (0 # 1) (40 # 1) drag
              pointerOne Hp) as (d' & M & _ & _ & N & _).
  exists d'. split; [exact M |]. apply N; reflexivity.
Defined.

(** Pointer 1 presses [task1], moves once, and releases over the event
    element: the callback receives the intent twice. *)
Lemma gesture_commits_on_release_witness :
  let ev := normalizeEvent zoneOffset unparsed task1 in
  (0 < List.length threeResources)%nat
  /\ Forall (fun r => (CalendarResource.id r =? "")%string = false) threeResources
  /\ NormalizedEvent.id ev = Some "e1"%string
  /\ exists (d : DragState.t) (r : CalendarResource.t),
       afterDispatchedMoves threeResources
         (onEventPointerDown threeResources (Some (0 # 1)) None pointerOne ev)
         [(atEventElement, Some (0 # 1), 40 # 1, pointerOne)] = Some d
       /\ dispatchPointerUp zoneOffset threeResources true (Some d)
            atEventElement pointerOne
          = (None,
             [updatedEvent zoneOffset d (CalendarResource.id r);
              updatedEvent zoneOffset d (CalendarResource.id r)]).
Proof.
  intros ev.
  assert (Hn : (0 < List.length threeResources)%nat) by (cbn; lia).
  assert (Hf : Forall (fun r => (CalendarResource.id r =? "")%string = false)
                 threeResources)
    by (repeat constructor).
  assert (Hi : NormalizedEvent.id ev = Some "e1"%string) by reflexivity.
  split; [exact Hn | split; [exact Hf | split; [exact Hi |]]].
  destruct (gesture_commits_on_release zoneOffset threeResources (0 # 1) None
              pointerOne pointerOne ev "e1"
              [(atEventElement, Some (0 # 1), 40 # 1, pointerOne)]
              atEventElement Hn Hf Hi eq_refl eq_refl)
    as (d & r & A & _ & _ & _ & _ & U).
  exists d, r. split; [exact A | exact U].
Defined.

(** The five-day event on resource r1 sits in row 0. *)
Lemma row_is_first_matching_resource_witness :
  let ev := normalizeEvent zoneOffset unparsed fiveDays in
  let x := Positioned.mk ev 0 1 0 in
  In x (visible zoneOffset daySection threeResources [ev])
  /\ exists (r : CalendarResource.t) (rid : string),
       NormalizedEvent.resourceId ev = Some rid
       /\ at_index threeResources 0 = Some r
       /\ CalendarResource.id r = rid.
Proof.
  intros ev x.
  assert (H : In x (visible zoneOffset daySection threeResources [ev]))
    by (vm_compute; left; reflexivity).
  split; [exact H |].
  destruct (row_is_first_matching_resource zoneOffset daySection threeResources
              [ev] x H) as (r & rid & A & B & C & _).
  exists r, rid. split; [exact A | split; [exact B | exact C]].
Defined.



